(** * raw2fits: 16-bit RAW image to FITS conversion

    A shallow embedding of [raw2fits.py] and the properties of its decoder
    and batch driver.

    The program talks to three collaborators that are not part of it: the
    operating system's filesystem ([os.path], [os.walk]), numpy
    ([np.fromfile], [ndarray.reshape]) and astropy ([hdu.writeto]).  They are
    gathered in the record [env]; every theorem is quantified over it.
    Effects are modelled by a writer-and-exception monad whose log is the
    ordered sequence of filesystem accesses and prints of a run. *)

From Stdlib Require Import ZArith List String Ascii Bool Lia.
From Stdlib Require Import Strings.Byte.
From Stdlib Require Import DecimalString.
Import ListNotations.

Local Open Scope string_scope.
Local Open Scope list_scope.
Local Open Scope Z_scope.
Local Set Warnings "-register-all".

(** ** Python strings

    Paths, file names and messages are [string]s.  Only the operations the
    program uses are modelled; [lower] is the ASCII part of [str.lower]. *)

Module PyStr.

Definition lower_ascii (c : ascii) : ascii :=
  let n := nat_of_ascii c in
  if ((65 <=? n)%nat && (n <=? 90)%nat)%bool then ascii_of_nat (n + 32) else c.

Fixpoint lower (s : string) : string :=
  match s with
  | EmptyString => EmptyString
  | String c r => String (lower_ascii c) (lower r)
  end.

(** [s[:n]] for [0 <= n]. *)
Fixpoint take (n : nat) (s : string) : string :=
  match n, s with
  | O, _ => EmptyString
  | S _, EmptyString => EmptyString
  | S k, String c r => String c (take k r)
  end.

(** [s[n:]] for [0 <= n]. *)
Fixpoint drop (n : nat) (s : string) : string :=
  match n, s with
  | O, _ => s
  | S _, EmptyString => EmptyString
  | S k, String _ r => drop k r
  end.

Definition startswith (s pre : string) : bool := String.prefix pre s.

Definition endswith (s suf : string) : bool :=
  ((String.length suf <=? String.length s)%nat
   && String.eqb (drop (String.length s - String.length suf) s) suf)%bool.

(** [s.rfind(c)] for a one-character needle: the highest index holding [c],
    [None] standing for Python's [-1]. *)
Fixpoint rfind (c : ascii) (s : string) : option nat :=
  match s with
  | EmptyString => None
  | String x r =>
      match rfind c r with
      | Some i => Some (S i)
      | None => if Ascii.eqb x c then Some O else None
      end
  end.

Definition index_Z (o : option nat) : Z :=
  match o with
  | Some i => Z.of_nat i
  | None => -1
  end.

(** [s[i:i+1]]: the empty string when [i] is past the end. *)
Definition char_at (i : nat) (s : string) : string := take 1 (drop i s).

(** [str(n)] for an [int]. *)
Definition str_of_int (n : Z) : string := NilZero.string_of_int (Z.to_int n).

(** Every character of [s] satisfies [q]. *)
Fixpoint all_chars (q : ascii -> bool) (s : string) : bool :=
  match s with
  | EmptyString => true
  | String c r => (q c && all_chars q r)%bool
  end.

End PyStr.

(** ** [os.path] (POSIX flavour) *)

Module OsPath.
Import PyStr.

Definition sep : string := "/".
Definition extsep : string := ".".

(** [posixpath.join(a, b)]. *)
Definition join (a b : string) : string :=
  if startswith b sep then b
  else if (String.eqb a "" || endswith a sep)%bool then (a ++ b)%string
  else (a ++ sep ++ b)%string.

(** The loop of [genericpath._splitext] that skips the leading dots of the
    file name: it runs [filenameIndex] from [sepIndex + 1] up to [dotIndex]
    and stops at the first character that is not a dot.  [n] is the number of
    iterations left, [dotIndex - filenameIndex]. *)
Fixpoint only_dots (p : string) (filenameIndex n : nat) : bool :=
  match n with
  | O => true
  | S k =>
      if String.eqb (char_at filenameIndex p) extsep
      then only_dots p (S filenameIndex) k
      else false
  end.

(** [os.path.splitext(p)]. *)
Definition splitext (p : string) : string * string :=
  let sepIndex := index_Z (rfind "/" p) in
  let dotIndex := index_Z (rfind "." p) in
  if dotIndex >? sepIndex then
    let filenameIndex := Z.to_nat (sepIndex + 1) in
    if only_dots p filenameIndex (Z.to_nat dotIndex - filenameIndex)
    then (p, "")
    else (take (Z.to_nat dotIndex) p, drop (Z.to_nat dotIndex) p)
  else (p, "").

(** [os.path.basename(p)]. *)
Definition basename (p : string) : string :=
  drop (Z.to_nat (index_Z (rfind "/" p) + 1)) p.

End OsPath.

(** ** Exceptions, the run log and the monad of the program *)

(** The exception classes the program raises or catches. [OtherException]
    stands for any other subclass of [Exception] a library may raise. *)
Inductive exn_class :=
| OSError | FileNotFoundError | ValueError | RuntimeError | OtherException.

Record exn := PyExc { exc_class : exn_class; exc_msg : string }.

(** [isinstance(err, OSError)]: [FileNotFoundError] is a subclass. *)
Definition is_OSError (err : exn) : bool :=
  match exc_class err with
  | OSError | FileNotFoundError => true
  | _ => false
  end.

(** [str(err)], what [f"{err}"] prints. *)
Definition str_exn (err : exn) : string := exc_msg err.

(** A 2-D [ndarray] of unsigned 16-bit samples, as its list of rows. *)
Definition ndarray2 := list (list Z).

(** What [fits.PrimaryHDU] holds when it is written. *)
Record hdu := { hdu_data : ndarray2; hdu_header : list (string * string) }.

(** One entry of the run log: a filesystem access or a printed line. *)
Inductive event :=
| IsDir (path : string)
| ScanDir (path : string)
| GetSize (path : string)
| FromFile (path : string)
| WriteTo (path : string) (h : hdu)
| Stdout (line : string)
| Stderr (line : string).

Inductive result (A : Type) :=
| Return (a : A)
| Raise (err : exn).
Arguments Return {A} a.
Arguments Raise {A} err.

(** A computation yields a value or raises, and logs its events in order. *)
Definition M (A : Type) : Type := result A * list event.

Definition ret {A} (a : A) : M A := (Return a, []).

Definition raise {A} (err : exn) : M A := (Raise err, []).

Definition emit (ev : event) : M unit := (Return tt, [ev]).

Definition bind {A B} (m : M A) (k : A -> M B) : M B :=
  match m with
  | (Return a, log) => let (r, log') := k a in (r, log ++ log')
  | (Raise err, log) => (Raise err, log)
  end.

(** [try: m  except Exception as err: handler err]. *)
Definition try_except {A} (m : M A) (handler : exn -> M A) : M A :=
  match m with
  | (Raise err, log) => let (r, log') := handler err in (r, log ++ log')
  | (Return a, log) => (Return a, log)
  end.

(** [try: m  except OSError as err: handler err]. *)
Definition try_except_OSError {A} (m : M A) (handler : exn -> M A) : M A :=
  try_except m (fun err => if is_OSError err then handler err else raise err).

Notation "x <- m ;; k" := (bind m (fun x => k))
  (at level 61, m at next level, right associativity).
Notation "m ;;; k" := (bind m (fun _ => k))
  (at level 61, right associativity).

(** A [for] loop whose body updates the loop-carried local variables [s]. *)
Fixpoint for_each {A S} (l : list A) (body : A -> S -> M S) (s : S) : M S :=
  match l with
  | [] => ret s
  | x :: rest => s' <- body x s ;; for_each rest body s'
  end.

Definition print (line : string) : M unit := emit (Stdout line).
Definition eprint (line : string) : M unit := emit (Stderr line).

(** ** The collaborators *)

(** A directory as [os.walk] sees it: the names of its non-directory entries
    and of its sub-directories, each in listing order.  A sub-directory that
    is not descended into (a symbolic link, or one whose listing fails) has
    no tree. *)
Inductive tree :=
| Dir (filenames : list string) (subdirs : list (string * option tree)).

(** The integers that fit a C [ssize_t] (64 bits), the type of an array
    dimension and of an item count in numpy. *)
Definition ssize_bound : Z := 9223372036854775808.

Definition fits_ssize (n : Z) : bool :=
  ((- ssize_bound <=? n) && (n <? ssize_bound))%bool.

(** The size that [getsize] reports and the bytes that a read returns are
    separate observations: nothing forces them to agree, so that a file
    changing between the two is covered.  Both are sizes of files, which
    the operating system keeps in a signed 64-bit [off_t].  Listings are
    taken from a fixed tree: the program only adds ".fits" files to
    directories [os.walk] has already listed, so the lazy traversal sees the
    tree it would have seen before the run.  Running out of memory is not
    modelled. *)
Record env := {
  (** [os.path.getsize]: the text of the [OSError], or [st_size]. *)
  getsize_of : string -> string + Z;
  (** Opening and reading a file: the text of the exception, or its bytes. *)
  content_of : string -> string + list byte;
  (** [os.path.isdir]. *)
  isdir_of : string -> bool;
  (** The directory tree under a path; [None] when it cannot be listed. *)
  tree_of : string -> option tree;
  (** [hdu.writeto]: the text of the exception, or [None] on success. *)
  writeto_of : string -> hdu -> option string;
  (** The text of numpy's error for a bad [reshape] of [size] to [(h, w)]. *)
  reshape_msg : Z -> Z -> Z -> string;
  (** The text of the [OverflowError] for a count that does not fit a C
      [ssize_t]. *)
  overflow_msg : Z -> string;
  (** The text of astropy's [ValueError] for a header value that is not
      printable ASCII. *)
  header_value_msg : string -> string;
  (** File sizes fit an [off_t]. *)
  getsize_bound :
    forall path n, getsize_of path = inr n -> 0 <= n < ssize_bound;
  content_bound :
    forall path bs,
      content_of path = inr bs -> Z.of_nat (List.length bs) < ssize_bound
}.

Module Os.
Import PyStr OsPath.

Definition getsize (e : env) (path : string) : M Z :=
  emit (GetSize path) ;;;
  match getsize_of e path with
  | inl msg => raise (PyExc OSError msg)
  | inr n => ret n
  end.

Definition isdir (e : env) (path : string) : M bool :=
  emit (IsDir path) ;;; ret (isdir_of e path).

(** The triples [(dirpath, dirnames, filenames)] of [os.walk(top)], top-down:
    a directory first, then its sub-directories in listing order. *)
Fixpoint walk_tree (top : string) (t : tree)
  : list (string * list string * list string) :=
  match t with
  | Dir filenames subdirs =>
      (top, map fst subdirs, filenames)
      :: flat_map (fun s =>
                     match s with
                     | (name, Some t') => walk_tree (join top name) t'
                     | (_, None) => []
                     end) subdirs
  end.

Definition walk (e : env) (top : string)
  : list (string * list string * list string) :=
  match tree_of e top with
  | Some t => walk_tree top t
  | None => []
  end.

End Os.

Module Np.

(** The two dtypes of the program: ["<u2"] and [">u2"]. *)
Inductive dtype := u2_le | u2_be.

Definition byte_Z (b : byte) : Z := Z.of_N (Byte.to_N b).

(** One item from its two bytes in file order. *)
Definition item (dt : dtype) (b0 b1 : byte) : Z :=
  match dt with
  | u2_le => byte_Z b0 + 256 * byte_Z b1
  | u2_be => 256 * byte_Z b0 + byte_Z b1
  end.

(** All the complete items of a byte sequence. *)
Fixpoint items (dt : dtype) (bs : list byte) : list Z :=
  match bs with
  | b0 :: b1 :: rest => item dt b0 b1 :: items dt rest
  | _ => []
  end.

(** [np.fromfile(path, dtype=dt, count=count)]: at most [count] items, all
    of them when [count] is negative; fewer when the file is short.  The
    count is converted to a C [ssize_t] when the arguments are parsed: one
    that does not fit raises before the file is opened. *)
Definition fromfile (e : env) (path : string) (dt : dtype) (count : Z)
  : M (list Z) :=
  if negb (fits_ssize count) then
    raise (PyExc OtherException (overflow_msg e count))
  else
    emit (FromFile path) ;;;
    match content_of e path with
    | inl msg => raise (PyExc OtherException msg)
    | inr bs =>
        let all := items dt bs in
        ret (if count <? 0 then all else firstn (Z.to_nat count) all)
    end.

Definition size (a : list Z) : Z := Z.of_nat (List.length a).

(** [h] rows of [w] consecutive items. *)
Fixpoint rows (h w : nat) (a : list Z) : ndarray2 :=
  match h with
  | O => []
  | S k => firstn w a :: rows k w (skipn w a)
  end.

(** [a.reshape((h, w))]: each dimension must fit a C [ssize_t] and the
    sizes must agree; one dimension may be [-1], to be inferred from the
    other. *)
Definition reshape (e : env) (a : list Z) (h w : Z) : M ndarray2 :=
  let n := size a in
  if negb (fits_ssize h && fits_ssize w) then
    raise (PyExc OtherException (reshape_msg e n h w))
  else if ((0 <=? h) && (0 <=? w) && (h * w =? n))%bool then
    ret (rows (Z.to_nat h) (Z.to_nat w) a)
  else if ((h =? -1) && (0 <? w) && (n mod w =? 0))%bool then
    ret (rows (Z.to_nat (n / w)) (Z.to_nat w) a)
  else if ((w =? -1) && (0 <? h) && (n mod h =? 0))%bool then
    ret (rows (Z.to_nat h) (Z.to_nat (n / h)) a)
  else raise (PyExc ValueError (reshape_msg e n h w)).

End Np.

Module Fits.
Import PyStr.

(** A character that a header value may hold: printable ASCII, from the
    space to the tilde. *)
Definition printable (c : ascii) : bool :=
  let n := nat_of_ascii c in ((32 <=? n)%nat && (n <=? 126)%nat)%bool.

(** The commentary keywords. *)
Definition is_commentary (keyword : string) : bool :=
  (String.eqb keyword "COMMENT" || String.eqb keyword "HISTORY"
   || String.eqb keyword "")%bool.

(** [fits.PrimaryHDU(image)].  Of the header only the cards that follow the
    structural ones (SIMPLE, BITPIX, NAXIS, ...) are kept, as
    [(keyword, value)] pairs in header order: none at first. *)
Definition PrimaryHDU (image : ndarray2) : hdu :=
  {| hdu_data := image; hdu_header := [] |}.

(** [Card(keyword, value)] for a string value: it must be printable ASCII. *)
Definition Card (e : env) (keyword value : string) : M (string * string) :=
  if all_chars printable value then ret (keyword, value)
  else raise (PyExc ValueError (header_value_msg e value)).

(** A commentary value is cut into pieces of at most [maxlen] characters;
    [fuel] bounds the number of pieces. *)
Fixpoint pieces (fuel maxlen : nat) (value : string) : list string :=
  match fuel with
  | O => []
  | S k =>
      match value with
      | EmptyString => []
      | _ => take maxlen value :: pieces k maxlen (drop maxlen value)
      end
  end.

Fixpoint cards (e : env) (keyword : string) (values : list string)
  : M (list (string * string)) :=
  match values with
  | [] => ret []
  | v :: rest =>
      c <- Card e keyword v ;;
      cs <- cards e keyword rest ;;
      ret (c :: cs)
  end.

(** [Header._splitcommentary]: one card when the value fits the 72
    characters that follow the keyword, consecutive cards otherwise. *)
Definition splitcommentary (e : env) (keyword value : string)
  : M (list (string * string)) :=
  if (String.length value <=? 72)%nat then cards e keyword [value]
  else cards e keyword (pieces (String.length value) 72 value).

(** [hdr[keyword] = value] for a commentary keyword the header does not hold
    yet: its cards are appended at the bottom. *)
Definition set_commentary (e : env) (hdr : list (string * string))
  (keyword value : string) : M (list (string * string)) :=
  cs <- splitcommentary e keyword value ;;
  ret (hdr ++ cs).

(** Where [Header.append] puts a new keyword: after the last card that is
    not a commentary card, so before the commentary cards that end the
    header. *)
Fixpoint insert_keyword (c : string * string) (hdr : list (string * string))
  : list (string * string) :=
  match hdr with
  | [] => [c]
  | x :: rest =>
      if forallb (fun y => is_commentary (fst y)) hdr then c :: hdr
      else x :: insert_keyword c rest
  end.

(** [hdr[keyword] = value] for a keyword the header does not hold yet and
    that is not a commentary keyword. *)
Definition set_keyword (e : env) (hdr : list (string * string))
  (keyword value : string) : M (list (string * string)) :=
  c <- Card e keyword value ;;
  ret (insert_keyword c hdr).

(** [hdu.writeto(path, overwrite=True, output_verify="fix")]. *)
Definition writeto (e : env) (h : hdu) (path : string) : M unit :=
  emit (WriteTo path h) ;;;
  match writeto_of e path h with
  | Some msg => raise (PyExc OSError msg)
  | None => ret tt
  end.

End Fits.

(** ** The program *)

Import PyStr.
Local Open Scope string_scope.
Local Open Scope Z_scope.

(** The [argparse.Namespace] that [parse_args] returns. *)
Record Namespace := {
  input : string;
  width : Z;
  height : Z;
  output : option string;
  byteorder : string
}.

Definition validate_file_size (e : env) (file_path : string) (width height : Z)
  : M unit :=
  let expected_bytes := width * height * 2 in
  actual_bytes <-
    try_except_OSError (Os.getsize e file_path)
      (fun err =>
         raise (PyExc FileNotFoundError
                  ("Cannot access '" ++ file_path ++ "': " ++ str_exn err))) ;;
  if negb (actual_bytes =? expected_bytes) then
    raise (PyExc ValueError
             ("File size mismatch: expected " ++ str_of_int expected_bytes
              ++ " bytes for " ++ str_of_int width ++ "x" ++ str_of_int height
              ++ "x16b, but got " ++ str_of_int actual_bytes ++ " bytes."))
  else ret tt.

Definition load_raw_image (e : env) (file_path : string) (width height : Z)
  (byteorder : string) : M ndarray2 :=
  let dtype := if String.eqb byteorder "little" then Np.u2_le else Np.u2_be in
  let num_pixels := width * height in
  image_1d <-
    try_except (Np.fromfile e file_path dtype num_pixels)
      (fun err =>
         raise (PyExc RuntimeError
                  ("Failed to read RAW data: " ++ str_exn err))) ;;
  if negb (Np.size image_1d =? num_pixels) then
    raise (PyExc ValueError
             ("Read " ++ str_of_int (Np.size image_1d) ++ " pixels, expected "
              ++ str_of_int num_pixels
              ++ ". The file may be truncated or parameters are incorrect."))
  else
    image_2d <-
      try_except (Np.reshape e image_1d height width)
        (fun err =>
           raise (PyExc ValueError
                    ("Failed to reshape to (" ++ str_of_int height ++ ", "
                     ++ str_of_int width ++ "): " ++ str_exn err))) ;;
    ret image_2d.

Definition write_fits (e : env) (image : ndarray2) (output_path raw_path : string)
  (width height : Z) (byteorder : string) : M unit :=
  let hdu := Fits.PrimaryHDU image in
  let hdr := hdu_header hdu in
  hdr <-
    Fits.set_commentary e hdr "COMMENT"
      "Converted from 16-bit RAW (2 bytes/pixel)." ;;
  hdr <-
    Fits.set_commentary e hdr "HISTORY"
      ("Source: " ++ OsPath.basename raw_path ++ "; " ++ str_of_int width
       ++ "x" ++ str_of_int height ++ "; byteorder=" ++ byteorder) ;;
  hdr <- Fits.set_keyword e hdr "CREATOR" "raw2fits.py" ;;
  let hdu := {| hdu_data := hdu_data hdu; hdu_header := hdr |} in
  try_except (Fits.writeto e hdu output_path)
    (fun err =>
       raise (PyExc RuntimeError
                ("Failed to write FITS file '" ++ output_path ++ "': "
                 ++ str_exn err))).

Definition derive_output_path (input_path : string) : string :=
  let (base, _) := OsPath.splitext input_path in
  base ++ ".fits".

(** The dictionary [{"written": ..., "failed": ...}]. *)
Record BatchResult := { written : list string; failed : list string }.

Definition convert_raw_directory_to_fits (e : env) (root_dir : string)
  (width height : Z) (byteorder : string) : M BatchResult :=
  lists <-
    for_each (Os.walk e root_dir)
      (fun '(dirpath, _dirnames, filenames) lists =>
         emit (ScanDir dirpath) ;;;
         for_each filenames
           (fun filename '(written, failed) =>
              if negb (endswith (lower filename) ".raw") then
                ret (written, failed)
              else
                let input_path := OsPath.join dirpath filename in
                print ("Processing: " ++ input_path) ;;;
                let output_path := derive_output_path input_path in
                try_except
                  (validate_file_size e input_path width height ;;;
                   image <- load_raw_image e input_path width height byteorder ;;
                   write_fits e image output_path input_path width height
                     byteorder ;;;
                   ret ((written ++ [output_path])%list, failed))
                  (fun err =>
                     ret (written,
                          (failed
                           ++ [(input_path ++ ": " ++ str_exn err)%string])%list)))
           lists)
      ([], []) ;;
  ret {| written := fst lists; failed := snd lists |}.

(** Truth value of an optional string: [None] and [""] are false. *)
Definition truthy (o : option string) : bool :=
  match o with
  | Some s => negb (String.eqb s "")
  | None => false
  end.

Definition len {A} (l : list A) : Z := Z.of_nat (List.length l).

(** [main] from the parsed arguments on; its value is the exit status. *)
Definition main (e : env) (args : Namespace) : M Z :=
  let input_path := input args in
  if ((width args <=? 0) || (height args <=? 0))%bool then
    eprint "Error: width and height must be positive integers." ;;;
    ret 2
  else
    is_dir <- Os.isdir e input_path ;;
    if is_dir then
      (if truthy (output args)
       then eprint "Warning: --output is ignored when input is a directory."
       else ret tt) ;;;
      result <-
        convert_raw_directory_to_fits e input_path (width args) (height args)
          (byteorder args) ;;
      print ("Converted " ++ str_of_int (len (written result))
             ++ " files. Failures: " ++ str_of_int (len (failed result))
             ++ ".") ;;;
      (match failed result with
       | [] => ret tt
       | _ =>
           for_each (failed result)
             (fun msg _ => eprint ("Failed: " ++ msg)) tt
       end) ;;;
      ret (if len (failed result) =? 0 then 0 else 1)
    else
      let output_path :=
        if truthy (output args)
        then match output args with Some o => o | None => "" end
        else derive_output_path input_path in
      status <-
        try_except
          (validate_file_size e input_path (width args) (height args) ;;;
           image <-
             load_raw_image e input_path (width args) (height args)
               (byteorder args) ;;
           write_fits e image output_path input_path (width args)
             (height args) (byteorder args) ;;;
           ret None)
          (fun err =>
             eprint ("Error: " ++ str_exn err) ;;;
             ret (Some 1)) ;;
      match status with
      | Some code => ret code
      | None =>
          print ("Wrote FITS: " ++ output_path) ;;;
          ret 0
      end.

(** ** Vocabulary of the specification *)

(** The dtype that [load_raw_image] selects for a byte-order argument. *)
Definition dtype_of (byteorder : string) : Np.dtype :=
  if String.eqb byteorder "little" then Np.u2_le else Np.u2_be.

(** The byte whose value is [z] modulo 256. *)
Definition byte_of_Z (z : Z) : byte :=
  match Byte.of_N (Z.to_N (z mod 256)) with
  | Some b => b
  | None => x00
  end.

(** The two bytes of a sample in the byte order of [dt]. *)
Definition item_bytes (dt : Np.dtype) (v : Z) : list byte :=
  match dt with
  | Np.u2_le => [byte_of_Z v; byte_of_Z (v / 256)]
  | Np.u2_be => [byte_of_Z (v / 256); byte_of_Z v]
  end.

(** Flattening a grid back to bytes, row after row. *)
Definition tobytes (dt : Np.dtype) (image : ndarray2) : list byte :=
  flat_map (flat_map (item_bytes dt)) image.

(** The candidate filter of directory mode. *)
Definition is_raw (filename : string) : bool :=
  endswith (lower filename) ".raw".

(** A name that ends in the raw-file extension, letter case put aside. *)
Definition has_raw_extension (filename : string) : Prop :=
  exists stem ext, filename = (stem ++ ext)%string /\ lower ext = ".raw".

(** [tree_file top t d f]: in the tree [t] rooted at path [top], the
    directory reached under the path [d] lists the file name [f]. *)
Inductive tree_file : string -> tree -> string -> string -> Prop :=
| file_here top filenames subdirs f :
    In f filenames -> tree_file top (Dir filenames subdirs) top f
| file_below top filenames subdirs name t d f :
    In (name, Some t) subdirs ->
    tree_file (OsPath.join top name) t d f ->
    tree_file top (Dir filenames subdirs) d f.

(** The candidates of a tree in discovery order: the raw files of a
    directory, then those of each sub-directory in turn. *)
Fixpoint tree_candidates (top : string) (t : tree) : list string :=
  match t with
  | Dir filenames subdirs =>
      map (OsPath.join top) (filter is_raw filenames)
      ++ flat_map (fun s =>
                     match s with
                     | (name, Some t') =>
                         tree_candidates (OsPath.join top name) t'
                     | (_, None) => []
                     end) subdirs
  end.

Definition candidates (e : env) (root_dir : string) : list string :=
  match tree_of e root_dir with
  | Some t => tree_candidates root_dir t
  | None => []
  end.

(** Converting one candidate: the three steps that both modes run on a file;
    its value is the output path. *)
Definition convert_one (e : env) (input_path : string) (width height : Z)
  (byteorder : string) : M string :=
  let output_path := derive_output_path input_path in
  validate_file_size e input_path width height ;;;
  image <- load_raw_image e input_path width height byteorder ;;
  write_fits e image output_path input_path width height byteorder ;;;
  ret output_path.

Definition succeeds (e : env) (width height : Z) (byteorder : string)
  (input_path : string) : bool :=
  match fst (convert_one e input_path width height byteorder) with
  | Return _ => true
  | Raise _ => false
  end.

(** The entry of [failed] for a candidate that raised. *)
Definition failure_line (e : env) (width height : Z) (byteorder : string)
  (input_path : string) : string :=
  match fst (convert_one e input_path width height byteorder) with
  | Return _ => ""
  | Raise err => (input_path ++ ": " ++ str_exn err)%string
  end.

(** Projections of a run log. *)
Definition getsize_paths (log : list event) : list string :=
  flat_map (fun ev => match ev with GetSize p => [p] | _ => [] end) log.

Definition fromfile_paths (log : list event) : list string :=
  flat_map (fun ev => match ev with FromFile p => [p] | _ => [] end) log.

Definition stdout_lines (log : list event) : list string :=
  flat_map (fun ev => match ev with Stdout l => [l] | _ => [] end) log.

Definition is_fs_access (ev : event) : bool :=
  match ev with
  | Stdout _ | Stderr _ => false
  | _ => true
  end.

Definition is_dot (c : ascii) : bool := Ascii.eqb c ".".
Definition is_sep (c : ascii) : bool := Ascii.eqb c "/".
Definition not_dot (c : ascii) : bool := negb (is_dot c).
Definition not_sep (c : ascii) : bool := negb (is_sep c).

(** Neither a dot nor a separator. *)
Definition plain (c : ascii) : bool := (not_dot c && not_sep c)%bool.

(** The directory part of a path: empty, or ending in the separator. *)
Definition dir_prefix (d : string) : Prop :=
  d = "" \/ exists d', d = (d' ++ "/")%string.

(** The candidates of one directory, and of a sequence of [os.walk]
    triples. *)
Definition dir_candidates (dirpath : string) (filenames : list string)
  : list string :=
  map (OsPath.join dirpath) (filter is_raw filenames).

Definition walk_candidates (triples : list (string * list string * list string))
  : list string :=
  flat_map (fun '(dirpath, _, filenames) => dir_candidates dirpath filenames)
    triples.

(** What a candidate adds to [written], to [failed] and to the log. *)
Definition written_by (e : env) (width height : Z) (byteorder : string)
  (input_path : string) : list string :=
  if succeeds e width height byteorder input_path
  then [derive_output_path input_path] else [].

Definition failed_by (e : env) (width height : Z) (byteorder : string)
  (input_path : string) : list string :=
  if succeeds e width height byteorder input_path
  then [] else [failure_line e width height byteorder input_path].

Definition attempt_log (e : env) (width height : Z) (byteorder : string)
  (input_path : string) : list event :=
  Stdout ("Processing: " ++ input_path)
  :: snd (convert_one e input_path width height byteorder).

Definition batch_log (e : env) (width height : Z) (byteorder : string)
  (triples : list (string * list string * list string)) : list event :=
  flat_map (fun '(dirpath, _, filenames) =>
              ScanDir dirpath
              :: flat_map (attempt_log e width height byteorder)
                   (dir_candidates dirpath filenames))
    triples.

(** ** Sample environments *)

Module Sample.

Definition px (lo : byte) : list byte := [lo; x00].

(** Samples 10, 20, 30, 40, little-endian. *)
Definition good : list byte := px x0a ++ px x14 ++ px x1e ++ px x28.
Definition short : list byte := px x0a ++ px x14 ++ px x1e.

Definition files : list (string * list byte) :=
  [ ("d/a.raw", good); ("d/b.RAW", short); ("d/notes.rawdata", good);
    ("d/sub/c.raw", good); ("d/sub/.raw", good); ("one.raw", [x01; x02]) ].

Fixpoint lookup (path : string) (fs : list (string * list byte))
  : option (list byte) :=
  match fs with
  | [] => None
  | (p, bs) :: rest => if String.eqb p path then Some bs else lookup path rest
  end.

Definition d_tree : tree :=
  Dir ["a.raw"; "b.RAW"; "notes.rawdata"]
      [ ("sub", Some (Dir ["c.raw"; ".raw"] [])); ("link", None) ].

Definition getsize_fn (p : string) : string + Z :=
  match lookup p files with
  | Some bs => inr (Z.of_nat (List.length bs))
  | None => inl ("[Errno 2] No such file or directory: '" ++ p ++ "'")%string
  end.

Definition content_fn (p : string) : string + list byte :=
  match lookup p files with
  | Some bs => inr bs
  | None => inl ("[Errno 2] No such file or directory: '" ++ p ++ "'")%string
  end.

Definition getsize_fn_bound :
  forall p n, getsize_fn p = inr n -> 0 <= n < ssize_bound.
Proof.
  intros p n. unfold getsize_fn, files. cbn [lookup].
  repeat match goal with
         | |- context [String.eqb ?a ?b] =>
             destruct (String.eqb a b);
             [intros [= <-]; unfold ssize_bound; cbn; lia|]
         end.
  discriminate.
Qed.

Definition content_fn_bound :
  forall p bs,
    content_fn p = inr bs -> Z.of_nat (List.length bs) < ssize_bound.
Proof.
  intros p bs. unfold content_fn, files. cbn [lookup].
  repeat match goal with
         | |- context [String.eqb ?a ?b] =>
             destruct (String.eqb a b);
             [intros [= <-]; unfold ssize_bound; cbn; lia|]
         end.
  discriminate.
Qed.

(** A filesystem holding [files], with the directory ["d"] and an empty
    directory ["empty"]; every write succeeds. *)
Definition fs : env :=
  {| getsize_of := getsize_fn;
     content_of := content_fn;
     isdir_of := fun p => (String.eqb p "d" || String.eqb p "empty")%bool;
     tree_of := fun p =>
       if String.eqb p "d" then Some d_tree
       else if String.eqb p "empty" then Some (Dir [] [])
       else None;
     writeto_of := fun _ _ => None;
     reshape_msg := fun _ _ _ => "cannot reshape array";
     overflow_msg := fun _ => "Python int too large to convert to C ssize_t";
     header_value_msg := fun _ =>
       "FITS header values must contain standard printable ASCII characters";
     getsize_bound := getsize_fn_bound;
     content_bound := content_fn_bound |}.

Definition args (inp : string) (w h : Z) : Namespace :=
  {| input := inp; width := w; height := h; output := None;
     byteorder := "little" |}.

End Sample.

(** ** Further vocabulary *)

(** More projections of a run log. *)
Definition stderr_lines (log : list event) : list string :=
  flat_map (fun ev => match ev with Stderr l => [l] | _ => [] end) log.

Definition writeto_paths (log : list event) : list string :=
  flat_map (fun ev => match ev with WriteTo p _ => [p] | _ => [] end) log.

Definition written_images (log : list event) : list (string * ndarray2) :=
  flat_map (fun ev => match ev with
                      | WriteTo p hd => [(p, hdu_data hd)]
                      | _ => []
                      end) log.

(** An unsigned 16-bit value. *)
Definition is_u16 (v : Z) : Prop := 0 <= v < 65536.

(** A 16-bit value with its two bytes exchanged. *)
Definition swap16 (v : Z) : Z := (v mod 256) * 256 + v / 256.

(** The items that [np.fromfile] delivers for a count, out of the bytes of
    the file. *)
Definition items_read (dt : Np.dtype) (count : Z) (buf : list byte) : list Z :=
  if count <? 0 then Np.items dt buf
  else firstn (Z.to_nat count) (Np.items dt buf).

(** The three steps of a conversion towards a given output path, as
    single-file mode runs them. *)
Definition convert_to (e : env) (input_path output_path : string)
  (width height : Z) (byteorder : string) : M unit :=
  validate_file_size e input_path width height ;;;
  image <- load_raw_image e input_path width height byteorder ;;
  write_fits e image output_path input_path width height byteorder.

(** The output path of single-file mode: the [--output] argument unless it
    is absent or empty. *)
Definition chosen_output (args : Namespace) : string :=
  match output args with
  | Some o => if String.eqb o "" then derive_output_path (input args) else o
  | None => derive_output_path (input args)
  end.

(** The lines that end a directory run. *)
Definition summary_line (r : BatchResult) : string :=
  "Converted " ++ str_of_int (len (written r)) ++ " files. Failures: "
  ++ str_of_int (len (failed r)) ++ ".".

Definition output_warning (args : Namespace) : list event :=
  if truthy (output args)
  then [Stderr "Warning: --output is ignored when input is a directory."]
  else [].

(** The value of the HISTORY card, and the header assignments of
    [write_fits] on their own: the cards they leave after the structural
    ones, or the error of the first value that is refused. *)
Definition history_value (raw_path : string) (width height : Z)
  (byteorder : string) : string :=
  "Source: " ++ OsPath.basename raw_path ++ "; " ++ str_of_int width
  ++ "x" ++ str_of_int height ++ "; byteorder=" ++ byteorder.

Definition header_cards (e : env) (raw_path : string) (width height : Z)
  (byteorder : string) : M (list (string * string)) :=
  hdr <-
    Fits.set_commentary e [] "COMMENT"
      "Converted from 16-bit RAW (2 bytes/pixel)." ;;
  hdr <-
    Fits.set_commentary e hdr "HISTORY"
      (history_value raw_path width height byteorder) ;;
  Fits.set_keyword e hdr "CREATOR" "raw2fits.py".

(** A string of printable ASCII characters. *)
Definition ascii_text (s : string) : bool := all_chars Fits.printable s.

(** The candidate passes the size validation, the read and the header
    assignments. *)
Definition reaches_write (e : env) (width height : Z) (byteorder : string)
  (input_path : string) : bool :=
  match fst (validate_file_size e input_path width height),
        fst (load_raw_image e input_path width height byteorder),
        fst (header_cards e input_path width height byteorder) with
  | Return _, Return _, Return _ => true
  | _, _, _ => false
  end.

(** The values of the cards that hold a commentary value. *)
Definition commentary_values (value : string) : list string :=
  if (String.length value <=? 72)%nat then [value]
  else Fits.pieces (String.length value) 72 value.

(** The cards that [write_fits] leaves in the header after the structural
    ones when its values are accepted: the new keyword CREATOR goes before
    the commentary cards. *)
Definition fits_header (raw_path : string) (width height : Z)
  (byteorder : string) : list (string * string) :=
  ("CREATOR", "raw2fits.py")
  :: ("COMMENT", "Converted from 16-bit RAW (2 bytes/pixel).")
  :: map (pair "HISTORY")
       (commentary_values (history_value raw_path width height byteorder)).

(** The grid that a readable candidate decodes to. *)
Definition decoded (e : env) (width height : Z) (byteorder : string)
  (input_path : string) : ndarray2 :=
  match content_of e input_path with
  | inr buf =>
      Np.rows (Z.to_nat height) (Z.to_nat width)
        (Np.items (dtype_of byteorder) buf)
  | inl _ => []
  end.

(** The result of a batch over given candidates. *)
Definition batch_result (e : env) (width height : Z) (byteorder : string)
  (cands : list string) : BatchResult :=
  {| written := flat_map (written_by e width height byteorder) cands;
     failed := flat_map (failed_by e width height byteorder) cands |}.

(** A second sample filesystem: ["big.raw"] holds two bytes more than a
    2x2 image, ["locked.raw"] has the right size but cannot be read,
    ["shrunk.raw"] reports the right size but has lost its last sample,
    nothing can be written under ["ro/"], the directory ["ok"] holds two
    well-formed 2x2 images, and the directory ["n"] holds a well-formed
    image whose name is not ASCII. *)
Module Sample2.

Definition long : list byte := Sample.good ++ [xff; xff].

(** The two bytes of a small e with an acute accent in UTF-8. *)
Definition e_acute : string :=
  String (ascii_of_nat 195) (String (ascii_of_nat 169) EmptyString).

Definition accented : string := "n/" ++ e_acute ++ ".raw".

Definition files : list (string * list byte) :=
  [ ("big.raw", long); ("ro/a.raw", Sample.good); ("ok/a.raw", Sample.good);
    ("ok/s/b.RAW", Sample.good); (accented, Sample.good);
    ("shrunk.raw", Sample.short) ].

Definition getsize_fn (p : string) : string + Z :=
  if (String.eqb p "locked.raw" || String.eqb p "shrunk.raw")%bool then inr 8
  else
    match Sample.lookup p files with
    | Some bs => inr (Z.of_nat (List.length bs))
    | None => inl ("[Errno 2] No such file or directory: '" ++ p ++ "'")
    end.

Definition content_fn (p : string) : string + list byte :=
  match Sample.lookup p files with
  | Some bs => inr bs
  | None => inl ("[Errno 13] Permission denied: '" ++ p ++ "'")
  end.

Definition getsize_fn_bound :
  forall p n, getsize_fn p = inr n -> 0 <= n < ssize_bound.
Proof.
  intros p n. unfold getsize_fn, files. cbn [Sample.lookup].
  repeat match goal with
         | |- context [String.eqb ?a ?b] =>
             destruct (String.eqb a b);
             [intros [= <-]; unfold ssize_bound; cbn; lia|]
         end.
  discriminate.
Qed.

Definition content_fn_bound :
  forall p bs,
    content_fn p = inr bs -> Z.of_nat (List.length bs) < ssize_bound.
Proof.
  intros p bs. unfold content_fn, files. cbn [Sample.lookup].
  repeat match goal with
         | |- context [String.eqb ?a ?b] =>
             destruct (String.eqb a b);
             [intros [= <-]; unfold ssize_bound; cbn; lia|]
         end.
  discriminate.
Qed.

Definition fs : env :=
  {| getsize_of := getsize_fn;
     content_of := content_fn;
     isdir_of := fun p =>
       (String.eqb p "ro" || String.eqb p "ok" || String.eqb p "n")%bool;
     tree_of := fun p =>
       if String.eqb p "ro" then Some (Dir ["a.raw"] [])
       else if String.eqb p "ok"
       then Some (Dir ["a.raw"; "skip.txt"] [("s", Some (Dir ["b.RAW"] []))])
       else if String.eqb p "n" then Some (Dir [e_acute ++ ".raw"] [])
       else None;
     writeto_of := fun p _ =>
       if startswith p "ro/"
       then Some ("[Errno 30] Read-only file system: '" ++ p ++ "'")
       else None;
     reshape_msg := fun _ _ _ => "cannot reshape array";
     overflow_msg := fun _ => "Python int too large to convert to C ssize_t";
     header_value_msg := fun _ =>
       "FITS header values must contain standard printable ASCII characters";
     getsize_bound := getsize_fn_bound;
     content_bound := content_fn_bound |}.

Definition args (inp : string) (out : option string) : Namespace :=
  {| input := inp; width := 2; height := 2; output := out;
     byteorder := "little" |}.

End Sample2.

(** ** Tactics *)

(** The computation scrutinised by the goal returns [v]. *)
Ltac step_returns v :=
  match goal with
  | |- match ?m with Return _ => _ | Raise _ => _ end = _ =>
      let H := fresh "Hstep" in
      assert (H : m = Return v); [|rewrite H; cbv beta iota]
  end.

Local Open Scope list_scope.
Local Open Scope Z_scope.

Example str_of_int_examples :
  PyStr.str_of_int 0 = "0" /\ PyStr.str_of_int 1280 = "1280"
  /\ PyStr.str_of_int (-7) = "-7".
Proof. repeat split; reflexivity. Qed.

Example splitext_examples :
  OsPath.splitext "a/b.c/x.raw" = ("a/b.c/x", ".raw")
  /\ OsPath.splitext "a.b/x" = ("a.b/x", "")
  /\ OsPath.splitext "d/..x.tar.gz" = ("d/..x.tar", ".gz")
  /\ OsPath.splitext "d/...raw" = ("d/...raw", "")
  /\ OsPath.splitext "x." = ("x", ".").
Proof. repeat split; reflexivity. Qed.

Example join_examples :
  OsPath.join "a" "b" = "a/b" /\ OsPath.join "a/" "b" = "a/b"
  /\ OsPath.join "" "b" = "b" /\ OsPath.join "a" "/b" = "/b".
Proof. repeat split; reflexivity. Qed.

(** ** Bytes and samples *)

Section Decoding.

Lemma byte_Z_range (b : byte) : 0 <= Np.byte_Z b < 256.
Proof.
  unfold Np.byte_Z.
  pose proof (Byte.to_N_bounded b) as Hb.
  lia.
Qed.

Lemma byte_of_Z_byte_Z (b : byte) : byte_of_Z (Np.byte_Z b) = b.
Proof.
  unfold byte_of_Z.
  rewrite Z.mod_small by apply byte_Z_range.
  unfold Np.byte_Z. rewrite N2Z.id, Byte.of_to_N. reflexivity.
Qed.

Lemma byte_of_Z_low (lo hi : byte) :
  byte_of_Z (Np.byte_Z lo + 256 * Np.byte_Z hi) = lo.
Proof.
  rewrite <- (byte_of_Z_byte_Z lo) at 2.
  unfold byte_of_Z at 1 2.
  replace ((Np.byte_Z lo + 256 * Np.byte_Z hi) mod 256)
    with (Np.byte_Z lo mod 256); [reflexivity|].
  rewrite (Z.mul_comm 256), Z.mod_add by lia. reflexivity.
Qed.

Lemma byte_of_Z_high (lo hi : byte) :
  byte_of_Z ((Np.byte_Z lo + 256 * Np.byte_Z hi) / 256) = hi.
Proof.
  rewrite (Z.mul_comm 256), Z.div_add by lia.
  rewrite Z.div_small by apply byte_Z_range.
  apply byte_of_Z_byte_Z.
Qed.

Lemma item_bytes_item (dt : Np.dtype) (b0 b1 : byte) :
  item_bytes dt (Np.item dt b0 b1) = [b0; b1].
Proof.
  destruct dt; unfold item_bytes, Np.item.
  - now rewrite byte_of_Z_low, byte_of_Z_high.
  - rewrite (Z.add_comm (256 * _)).
    now rewrite byte_of_Z_low, byte_of_Z_high.
Qed.

(** Induction on byte sequences two bytes at a time. *)
Lemma pairs_ind (P : list byte -> Prop) :
  P [] -> (forall b, P [b]) ->
  (forall b0 b1 rest, P rest -> P (b0 :: b1 :: rest)) ->
  forall bs, P bs.
Proof.
  intros Hnil Hone Hstep.
  fix IH 1.
  intros [|b0 [|b1 rest]]; [exact Hnil | apply Hone | apply Hstep, IH].
Qed.

Lemma items_length (dt : Np.dtype) (bs : list byte) :
  List.length (Np.items dt bs) = (List.length bs / 2)%nat.
Proof.
  induction bs as [| b | b0 b1 rest IH] using pairs_ind; [reflexivity ..|].
  cbn [Np.items List.length]. rewrite IH.
  change (S (S (List.length rest))) with (1 * 2 + List.length rest)%nat.
  rewrite Nat.div_add_l by lia. reflexivity.
Qed.

Lemma items_bytes (dt : Np.dtype) (bs : list byte) :
  Nat.even (List.length bs) = true ->
  flat_map (item_bytes dt) (Np.items dt bs) = bs.
Proof.
  induction bs as [| b | b0 b1 rest IH] using pairs_ind; intros Hev.
  - reflexivity.
  - discriminate.
  - cbn [Np.items flat_map]. rewrite item_bytes_item, IH by exact Hev.
    reflexivity.
Qed.

End Decoding.

(** ** Reshaping *)

Section Reshape.

Lemma rows_length (h w : nat) (a : list Z) : List.length (Np.rows h w a) = h.
Proof.
  revert a; induction h as [|k IH]; intros a; cbn; [|rewrite IH]; reflexivity.
Qed.

Lemma rows_widths (h w : nat) (a : list Z) :
  List.length a = (h * w)%nat ->
  Forall (fun row => List.length row = w) (Np.rows h w a).
Proof.
  revert a; induction h as [|k IH]; intros a Hlen; cbn; constructor.
  - rewrite length_firstn. lia.
  - apply IH. rewrite length_skipn. lia.
Qed.

Lemma rows_flat_map {B} (f : Z -> list B) (h w : nat) (a : list Z) :
  List.length a = (h * w)%nat ->
  flat_map (flat_map f) (Np.rows h w a) = flat_map f a.
Proof.
  revert a; induction h as [|k IH]; intros a Hlen; cbn.
  - destruct a; [reflexivity | discriminate].
  - rewrite IH by (rewrite length_skipn; lia).
    rewrite <- flat_map_app, firstn_skipn. reflexivity.
Qed.

(** Item [i] of the flat sequence sits at row [i / w], column [i mod w]. *)
Lemma rows_nth_error (h w : nat) (a : list Z) (i : nat) :
  (i < h * w)%nat ->
  nth_error (nth (i / w) (Np.rows h w a) []) (i mod w) = nth_error a i.
Proof.
  revert a i; induction h as [|k IH]; intros a i Hi; [lia|].
  assert (Hw : (0 < w)%nat) by (destruct w; lia).
  cbn [Np.rows].
  destruct (Nat.lt_ge_cases i w) as [Hlt | Hge].
  - rewrite Nat.div_small, Nat.mod_small by exact Hlt.
    cbn [nth]. rewrite nth_error_firstn.
    apply Nat.ltb_lt in Hlt. rewrite Hlt. reflexivity.
  - replace i with ((i - w) + 1 * w)%nat at 1 2 by lia.
    rewrite Nat.div_add, Nat.Div0.mod_add by lia.
    rewrite Nat.add_1_r. cbn [nth].
    rewrite IH by lia.
    rewrite nth_error_skipn. f_equal. lia.
Qed.

End Reshape.

(** ** The decoder *)

Section Decoder.

Variable e : env.

Lemma fits_ssize_iff (n : Z) :
  fits_ssize n = true <-> - ssize_bound <= n < ssize_bound.
Proof.
  unfold fits_ssize. rewrite andb_true_iff, Z.leb_le, Z.ltb_lt. reflexivity.
Qed.

Lemma fromfile_run (p : string) (dt : Np.dtype) (count : Z) (buf : list byte) :
  fits_ssize count = true ->
  content_of e p = inr buf ->
  Np.fromfile e p dt count =
    (Return (if count <? 0 then Np.items dt buf
             else firstn (Z.to_nat count) (Np.items dt buf)),
     [FromFile p]).
Proof.
  intros Hfit Hc. unfold Np.fromfile, bind, emit. rewrite Hfit, Hc.
  reflexivity.
Qed.

Lemma items_size (dt : Np.dtype) (buf : list byte) (n : Z) :
  Z.of_nat (List.length buf) = n * 2 ->
  Np.size (Np.items dt buf) = n.
Proof.
  intros Hlen. unfold Np.size. rewrite items_length.
  assert (List.length buf = (Z.to_nat n * 2)%nat) as -> by lia.
  rewrite Nat.div_mul by lia. lia.
Qed.

Lemma load_raw_image_exact (p : string) (w h : Z) (bo : string)
  (buf : list byte) :
  content_of e p = inr buf ->
  0 < w -> 0 < h ->
  Z.of_nat (List.length buf) = w * h * 2 ->
  load_raw_image e p w h bo =
    (Return (Np.rows (Z.to_nat h) (Z.to_nat w) (Np.items (dtype_of bo) buf)),
     [FromFile p]).
Proof.
  intros Hc Hw Hh Hlen.
  pose proof (content_bound e p buf Hc) as Hbound.
  pose proof (items_size (dtype_of bo) buf (w * h) Hlen) as Hsize.
  assert (Hfit : fits_ssize (w * h) = true)
    by (apply fits_ssize_iff; unfold ssize_bound in *; nia).
  assert (Hfith : fits_ssize h = true)
    by (apply fits_ssize_iff; unfold ssize_bound in *; nia).
  assert (Hfitw : fits_ssize w = true)
    by (apply fits_ssize_iff; unfold ssize_bound in *; nia).
  unfold load_raw_image.
  change (if String.eqb bo "little" then Np.u2_le else Np.u2_be)
    with (dtype_of bo).
  rewrite (fromfile_run p _ _ buf Hfit Hc).
  assert (Hcount : (w * h <? 0) = false) by (apply Z.ltb_ge; nia).
  rewrite Hcount.
  assert (Hall : firstn (Z.to_nat (w * h)) (Np.items (dtype_of bo) buf)
                 = Np.items (dtype_of bo) buf).
  { apply firstn_all2. unfold Np.size in Hsize. lia. }
  rewrite Hall.
  cbn [try_except bind].
  rewrite Hsize, Z.eqb_refl. cbn [negb].
  unfold Np.reshape. rewrite Hsize, Hfith, Hfitw. cbn [andb negb].
  assert (Hshape : ((0 <=? h) && (0 <=? w) && (h * w =? w * h))%bool = true).
  { rewrite !andb_true_iff, !Z.leb_le, Z.eqb_eq. lia. }
  rewrite Hshape. reflexivity.
Qed.

End Decoder.

(** ** The monad *)

Section Monad.

Lemma bind_fst {A B} (m : M A) (k : A -> M B) :
  fst (bind m k) =
    match fst m with
    | Return a => fst (k a)
    | Raise err => Raise err
    end.
Proof. destruct m as [[a|err] log]; cbn; [destruct (k a)|]; reflexivity. Qed.

Lemma bind_snd {A B} (m : M A) (k : A -> M B) :
  snd (bind m k) =
    snd m ++ match fst m with
             | Return a => snd (k a)
             | Raise _ => []
             end.
Proof.
  destruct m as [[a|err] log]; cbn; [destruct (k a)|rewrite app_nil_r];
    reflexivity.
Qed.

Lemma try_except_snd {A} (m : M A) (handler : exn -> M A) :
  snd (try_except m handler) =
    snd m ++ match fst m with
             | Return _ => []
             | Raise err => snd (handler err)
             end.
Proof.
  destruct m as [[a|err] log]; cbn; [rewrite app_nil_r|destruct (handler err)];
    reflexivity.
Qed.

Lemma try_except_raise_snd {A} (m : M A) (f : exn -> exn) :
  snd (try_except m (fun err => raise (f err))) = snd m.
Proof.
  rewrite try_except_snd. destruct (fst m); cbn; apply app_nil_r.
Qed.

End Monad.

(** ** The three steps of a conversion *)

Section Steps.

Variable e : env.

Lemma validate_file_size_run (p : string) (w h n : Z) :
  getsize_of e p = inr n ->
  validate_file_size e p w h =
    (if n =? w * h * 2 then Return tt
     else Raise (PyExc ValueError
                   ("File size mismatch: expected " ++ str_of_int (w * h * 2)
                    ++ " bytes for " ++ str_of_int w ++ "x" ++ str_of_int h
                    ++ "x16b, but got " ++ str_of_int n ++ " bytes.")),
     [GetSize p]).
Proof.
  intros Hn.
  unfold validate_file_size, try_except_OSError, Os.getsize, bind, emit.
  rewrite Hn. cbn. destruct (n =? w * h * 2); reflexivity.
Qed.

Lemma validate_file_size_log (p : string) (w h : Z) :
  snd (validate_file_size e p w h) = [GetSize p].
Proof.
  destruct (getsize_of e p) as [msg|n] eqn:Hn.
  - unfold validate_file_size, try_except_OSError, Os.getsize, bind, emit.
    rewrite Hn. reflexivity.
  - rewrite (validate_file_size_run p w h n Hn). reflexivity.
Qed.

Lemma load_raw_image_log (p : string) (w h : Z) (bo : string) :
  snd (load_raw_image e p w h bo)
  = if fits_ssize (w * h) then [FromFile p] else [].
Proof.
  unfold load_raw_image.
  set (dt := if String.eqb bo "little" then Np.u2_le else Np.u2_be).
  rewrite bind_snd, try_except_raise_snd.
  assert (Hff : snd (Np.fromfile e p dt (w * h))
                = if fits_ssize (w * h) then [FromFile p] else []).
  { unfold Np.fromfile, bind, emit.
    destruct (fits_ssize (w * h)); [|reflexivity].
    destruct (content_of e p); reflexivity. }
  assert (Hraise : fits_ssize (w * h) = false ->
                   exists err, fst (Np.fromfile e p dt (w * h)) = Raise err).
  { intros Hfit. unfold Np.fromfile. rewrite Hfit. eexists; reflexivity. }
  rewrite Hff.
  destruct (fst (try_except (Np.fromfile e p dt (w * h)) _)) as [a|err] eqn:Hr.
  2: { apply app_nil_r. }
  destruct (fits_ssize (w * h)) eqn:Hfit.
  2: { destruct (Hraise eq_refl) as [err Herr].
       destruct (Np.fromfile e p dt (w * h)) as [[x|x] l];
         cbn in Herr, Hr; discriminate. }
  destruct (negb (Np.size a =? w * h)); [reflexivity|].
  rewrite bind_snd, try_except_raise_snd.
  assert (Hrs : snd (Np.reshape e a h w) = []).
  { unfold Np.reshape.
    repeat match goal with |- context [if ?c then _ else _] => destruct c end;
      reflexivity. }
  rewrite Hrs.
  destruct (fst (try_except (Np.reshape e a h w) _)); reflexivity.
Qed.

(** The log of [load_raw_image] is empty or the one read of the file. *)
Lemma load_raw_image_log_cases (p : string) (w h : Z) (bo : string) :
  (snd (load_raw_image e p w h bo) = [FromFile p])
  \/ (snd (load_raw_image e p w h bo) = []
      /\ exists err, fst (load_raw_image e p w h bo) = Raise err).
Proof.
  rewrite load_raw_image_log.
  destruct (fits_ssize (w * h)) eqn:Hfit; [left; reflexivity|].
  right. split; [reflexivity|].
  unfold load_raw_image, Np.fromfile. rewrite Hfit. cbn.
  eexists; reflexivity.
Qed.

Lemma cards_log (keyword : string) (values : list string) :
  snd (Fits.cards e keyword values) = [].
Proof.
  induction values as [|v rest IH]; [reflexivity|].
  cbn [Fits.cards]. unfold Fits.Card.
  destruct (all_chars Fits.printable v); [|reflexivity].
  cbn [bind ret]. destruct (Fits.cards e keyword rest) as [[cs|err] l].
  - cbn in *. subst l. reflexivity.
  - cbn in *. subst l. reflexivity.
Qed.

Lemma set_commentary_log (hdr : list (string * string))
  (keyword value : string) :
  snd (Fits.set_commentary e hdr keyword value) = [].
Proof.
  unfold Fits.set_commentary, Fits.splitcommentary.
  rewrite bind_snd.
  destruct (String.length value <=? 72)%nat; rewrite cards_log;
    match goal with |- context [fst ?m] => destruct (fst m) end; reflexivity.
Qed.

Lemma set_keyword_log (hdr : list (string * string))
  (keyword value : string) :
  snd (Fits.set_keyword e hdr keyword value) = [].
Proof.
  unfold Fits.set_keyword, Fits.Card.
  destruct (all_chars Fits.printable value); reflexivity.
Qed.

Lemma bind_assoc {A B C} (m : M A) (f : A -> M B) (g : B -> M C) :
  bind (bind m f) g = bind m (fun x => bind (f x) g).
Proof.
  destruct m as [[a|err] l]; cbn; [|reflexivity].
  destruct (f a) as [[b|err] l']; cbn; [|reflexivity].
  destruct (g b) as [r l'']. rewrite app_assoc. reflexivity.
Qed.

Lemma header_cards_log (raw : string) (w h : Z) (bo : string) :
  snd (header_cards e raw w h bo) = [].
Proof.
  unfold header_cards.
  rewrite bind_snd, set_commentary_log.
  destruct (fst (Fits.set_commentary e [] _ _)) as [hdr1|err]; [|reflexivity].
  rewrite bind_snd, set_commentary_log.
  destruct (fst (Fits.set_commentary e hdr1 _ _)) as [hdr2|err];
    [|reflexivity].
  apply set_keyword_log.
Qed.

(** [write_fits] builds the header, then writes. *)
Lemma write_fits_header (image : ndarray2) (out raw : string) (w h : Z)
  (bo : string) :
  write_fits e image out raw w h bo =
    (hdr <- header_cards e raw w h bo ;;
     try_except
       (Fits.writeto e {| hdu_data := image; hdu_header := hdr |} out)
       (fun err =>
          raise (PyExc RuntimeError
                   ("Failed to write FITS file '" ++ out ++ "': "
                    ++ str_exn err)))).
Proof.
  unfold write_fits, header_cards. cbv zeta.
  cbn [Fits.PrimaryHDU hdu_header hdu_data].
  fold (history_value raw w h bo).
  destruct (Fits.set_commentary e [] "COMMENT" _) as [[hdr1|err] l1];
    cbn [bind]; [|reflexivity].
  destruct (Fits.set_commentary e hdr1 "HISTORY" _) as [[hdr2|err] l2];
    cbn [bind]; [|reflexivity].
  destruct (Fits.set_keyword e hdr2 "CREATOR" "raw2fits.py")
    as [[hdr3|err] l3]; cbn [bind]; [|reflexivity].
  destruct (try_except _ _) as [r l]. rewrite !app_assoc. reflexivity.
Qed.

(** [write_fits] logs nothing when a header value is refused, and its one
    write otherwise. *)
Lemma write_fits_log (image : ndarray2) (out p : string) (w h : Z)
  (bo : string) :
  (snd (write_fits e image out p w h bo) = []
   /\ exists err, fst (write_fits e image out p w h bo) = Raise err)
  \/ (exists hd, snd (write_fits e image out p w h bo) = [WriteTo out hd]).
Proof.
  rewrite write_fits_header.
  pose proof (header_cards_log p w h bo) as Hlog.
  destruct (header_cards e p w h bo) as [[hdr|err] l];
    cbn [snd] in Hlog; subst l; cbn [bind].
  - right. exists {| hdu_data := image; hdu_header := hdr |}.
    unfold Fits.writeto, bind, emit, try_except.
    destruct (writeto_of e out _); reflexivity.
  - left. split; [reflexivity | eexists; reflexivity].
Qed.

End Steps.

(** ** One candidate *)

Section Candidate.

Variable e : env.
Variables (w h : Z) (bo : string).

Lemma convert_one_log (p : string) :
  let log := snd (convert_one e p w h bo) in
  log = [GetSize p] \/ log = [GetSize p; FromFile p]
  \/ exists hd,
       log = [GetSize p; FromFile p; WriteTo (derive_output_path p) hd].
Proof.
  unfold convert_one. cbv zeta.
  rewrite bind_snd, validate_file_size_log.
  destruct (fst (validate_file_size e p w h)); [|now left].
  rewrite bind_snd.
  destruct (load_raw_image_log_cases e p w h bo) as [Hl | [Hl [err Herr]]];
    rewrite Hl.
  2: { rewrite Herr. now left. }
  destruct (fst (load_raw_image e p w h bo)) as [image|err]; [|now right; left].
  rewrite bind_snd.
  destruct (write_fits_log e image (derive_output_path p) p w h bo)
    as [[Hw [err Herr]] | [hd Hhd]].
  - rewrite Hw, Herr. now right; left.
  - right; right. exists hd. rewrite Hhd.
    destruct (fst (write_fits e image (derive_output_path p) p w h bo));
      reflexivity.
Qed.

Lemma convert_one_getsize (p : string) :
  getsize_paths (snd (convert_one e p w h bo)) = [p].
Proof.
  destruct (convert_one_log p) as [H | [H | [hd H]]]; rewrite H; reflexivity.
Qed.

Lemma convert_one_stdout (p : string) :
  stdout_lines (snd (convert_one e p w h bo)) = [].
Proof.
  destruct (convert_one_log p) as [H | [H | [hd H]]]; rewrite H; reflexivity.
Qed.

(** The [try] statement of the directory loop, for one candidate. *)
Lemma attempt_run (p : string) (ws fs : list string) :
  try_except
    (validate_file_size e p w h ;;;
     image <- load_raw_image e p w h bo ;;
     write_fits e image (derive_output_path p) p w h bo ;;;
     ret (ws ++ [derive_output_path p], fs))
    (fun err => ret (ws, fs ++ [(p ++ ": " ++ str_exn err)%string]))
  = (Return (ws ++ written_by e w h bo p, fs ++ failed_by e w h bo p),
     snd (convert_one e p w h bo)).
Proof.
  unfold written_by, failed_by, succeeds, failure_line, convert_one.
  cbv zeta.
  destruct (validate_file_size e p w h) as [[[]|err] l1]; cbn.
  - destruct (load_raw_image e p w h bo) as [[image|err] l2]; cbn.
    + destruct (write_fits e image (derive_output_path p) p w h bo)
        as [[[]|err] l3]; cbn; rewrite ?app_nil_r; reflexivity.
    + rewrite ?app_nil_r; reflexivity.
  - rewrite ?app_nil_r; reflexivity.
Qed.

End Candidate.

(** ** The directory loop *)

Section Batch.

Lemma flat_map_flat_map {A B C} (f : B -> list C) (g : A -> list B)
  (l : list A) :
  flat_map f (flat_map g l) = flat_map (fun x => flat_map f (g x)) l.
Proof.
  induction l as [|x l IH]; cbn; [reflexivity|].
  rewrite flat_map_app, IH. reflexivity.
Qed.

Lemma flat_map_map_filter {A B C} (f : B -> list C) (g : A -> B)
  (q : A -> bool) (l : list A) :
  flat_map f (map g (filter q l)) =
    flat_map (fun x => if q x then f (g x) else []) l.
Proof.
  induction l as [|x l IH]; cbn; [reflexivity|].
  destruct (q x); cbn; rewrite IH; reflexivity.
Qed.

(** A loop whose body only appends to the two lists and never raises. *)
Lemma for_each_appends {A} (body : A -> list string * list string ->
                                   M (list string * list string))
  (W F : A -> list string) (L : A -> list event) :
  (forall x ws fs, body x (ws, fs) = (Return (ws ++ W x, fs ++ F x), L x)) ->
  forall l ws fs,
    for_each l body (ws, fs) =
      (Return (ws ++ flat_map W l, fs ++ flat_map F l), flat_map L l).
Proof.
  intros Hbody l; induction l as [|x l IH]; intros ws fs; cbn [for_each flat_map].
  - rewrite !app_nil_r. reflexivity.
  - rewrite Hbody. cbn [bind]. rewrite IH, !app_assoc. reflexivity.
Qed.

Variable e : env.
Variables (w h : Z) (bo : string).

Theorem convert_raw_directory_to_fits_run (root : string) :
  convert_raw_directory_to_fits e root w h bo =
    (Return {| written := flat_map (written_by e w h bo)
                            (walk_candidates (Os.walk e root));
               failed := flat_map (failed_by e w h bo)
                           (walk_candidates (Os.walk e root)) |},
     batch_log e w h bo (Os.walk e root)).
Proof.
  unfold convert_raw_directory_to_fits, walk_candidates, batch_log.
  rewrite !flat_map_flat_map.
  erewrite for_each_appends with
    (W := fun t => flat_map (written_by e w h bo) (let '(d, _, fns) := t in dir_candidates d fns))
    (F := fun t => flat_map (failed_by e w h bo) (let '(d, _, fns) := t in dir_candidates d fns))
    (L := fun t => let '(d, _, fns) := t in
                   ScanDir d :: flat_map (attempt_log e w h bo) (dir_candidates d fns)).
  - cbn. rewrite app_nil_r. reflexivity.
  - intros [[d dn] fns] ws fs. cbn [bind emit].
    unfold dir_candidates. rewrite !flat_map_map_filter.
    erewrite for_each_appends; [reflexivity|].
    intros f ws' fs'. cbv beta.
    change (endswith (lower f) ".raw") with (is_raw f).
    destruct (is_raw f); cbn [negb].
    + unfold print. cbn [bind emit]. rewrite attempt_run. reflexivity.
    + rewrite !app_nil_r. reflexivity.
Qed.

End Batch.

(** ** The traversal *)

Section Traversal.

Lemma tree_induction (P : tree -> Prop) :
  (forall filenames subdirs,
     (forall name t, In (name, Some t) subdirs -> P t) ->
     P (Dir filenames subdirs)) ->
  forall t, P t.
Proof.
  intros HDir. fix IH 1. intros [filenames subdirs]. apply HDir.
  revert subdirs. fix IHs 1. intros [|[n o] subdirs] name t Hin.
  - destruct Hin.
  - destruct Hin as [Heq | Hin].
    + destruct o as [t'|]; [|discriminate].
      replace t with t' by congruence. apply IH.
    + exact (IHs subdirs name t Hin).
Qed.

Lemma walk_candidates_app (l1 l2 : list (string * list string * list string)) :
  walk_candidates (l1 ++ l2) = walk_candidates l1 ++ walk_candidates l2.
Proof. apply flat_map_app. Qed.

(** The candidates of the [os.walk] triples are the candidates of the tree. *)
Lemma walk_tree_candidates (t : tree) :
  forall top, walk_candidates (Os.walk_tree top t) = tree_candidates top t.
Proof.
  induction t as [filenames subdirs IH] using tree_induction; intros top.
  cbn [Os.walk_tree tree_candidates].
  change (walk_candidates (?x :: ?l)) with
    ((let '(d, _, fns) := x in dir_candidates d fns) ++ walk_candidates l).
  cbv beta iota. unfold dir_candidates at 1. f_equal.
  induction subdirs as [|[name [t'|]] subdirs IHs]; cbn [flat_map].
  - reflexivity.
  - rewrite walk_candidates_app, (IH name t') by (left; reflexivity).
    f_equal. apply IHs. intros n t Hin. apply (IH n t). right; exact Hin.
  - cbn [app]. apply IHs. intros n t Hin. apply (IH n t). right; exact Hin.
Qed.

Lemma walk_candidates_env (e : env) (root : string) :
  walk_candidates (Os.walk e root) = candidates e root.
Proof.
  unfold Os.walk, candidates.
  destruct (tree_of e root); [apply walk_tree_candidates | reflexivity].
Qed.

(** A path is a candidate of a tree exactly when it joins a directory of
    the tree with a raw file name listed there. *)
Lemma tree_candidates_spec (t : tree) :
  forall top p,
    In p (tree_candidates top t) <->
    exists d f, tree_file top t d f /\ is_raw f = true /\ p = OsPath.join d f.
Proof.
  induction t as [filenames subdirs IH] using tree_induction; intros top p.
  cbn [tree_candidates]. rewrite in_app_iff, in_map_iff, in_flat_map.
  split.
  - intros [[f [Hp Hf]] | [[name [t'|]] [Hin Hp]]].
    + apply filter_In in Hf as [Hf Hraw].
      exists top, f. repeat split; [now constructor | exact Hraw | now symmetry].
    + apply (IH name t' Hin) in Hp as (d & f & Htf & Hraw & Hp).
      exists d, f. repeat split; [|exact Hraw | exact Hp].
      eapply file_below; eassumption.
    + destruct Hp.
  - intros (d & f & Htf & Hraw & ->).
    inversion Htf as [top' fns subs f' Hf | top' fns subs name t' d' f' Hin Hsub];
      subst.
    + left. exists f. split; [reflexivity|]. apply filter_In. now split.
    + right. exists (name, Some t'). split; [exact Hin|].
      apply (IH name t' Hin). exists d, f. now repeat split.
Qed.

End Traversal.

(** ** Strings *)

Section Strings.

Local Open Scope string_scope.

Lemma append_assoc (a b c : string) : (a ++ b) ++ c = a ++ (b ++ c).
Proof. induction a as [|x a IH]; cbn; [|rewrite IH]; reflexivity. Qed.

Lemma append_nil_r (a : string) : a ++ "" = a.
Proof. induction a as [|x a IH]; cbn; [|rewrite IH]; reflexivity. Qed.

Lemma length_append (a b : string) :
  String.length (a ++ b) = (String.length a + String.length b)%nat.
Proof. induction a as [|x a IH]; cbn; [|rewrite IH]; reflexivity. Qed.

Lemma take_drop (n : nat) (s : string) : take n s ++ drop n s = s.
Proof.
  revert s; induction n as [|n IH]; intros [|c s]; cbn; try reflexivity.
  now rewrite IH.
Qed.

Lemma take_append_length (a b : string) : take (String.length a) (a ++ b) = a.
Proof. induction a as [|x a IH]; cbn; [destruct b|rewrite IH]; reflexivity. Qed.

Lemma drop_append_length (a b : string) : drop (String.length a) (a ++ b) = b.
Proof. induction a as [|x a IH]; cbn; [|rewrite IH]; reflexivity. Qed.

Lemma length_lower (s : string) : String.length (lower s) = String.length s.
Proof. induction s as [|c s IH]; cbn; [|rewrite IH]; reflexivity. Qed.

Lemma lower_append (a b : string) : lower (a ++ b) = lower a ++ lower b.
Proof. induction a as [|x a IH]; cbn; [|rewrite IH]; reflexivity. Qed.

Lemma lower_drop (n : nat) (s : string) : lower (drop n s) = drop n (lower s).
Proof.
  revert s; induction n as [|n IH]; intros [|c s]; cbn; try reflexivity.
  apply IH.
Qed.

(** The candidate filter accepts exactly the names with the extension. *)
Lemma is_raw_spec (f : string) : is_raw f = true <-> has_raw_extension f.
Proof.
  unfold is_raw, endswith, has_raw_extension.
  rewrite andb_true_iff, Nat.leb_le, String.eqb_eq, length_lower.
  split.
  - intros [Hlen Hext].
    exists (take (String.length f - String.length ".raw") f),
           (drop (String.length f - String.length ".raw") f).
    split; [symmetry; apply take_drop|].
    rewrite lower_drop. exact Hext.
  - intros (stem & ext & -> & Hext).
    assert (Hl : String.length ext = String.length ".raw")
      by (rewrite <- Hext; symmetry; apply length_lower).
    rewrite length_append, Hl. split; [lia|].
    rewrite lower_append, Hext, Nat.add_sub, <- (length_lower stem).
    apply drop_append_length.
Qed.

Lemma rfind_none (c : ascii) (s : string) :
  rfind c s = None <-> all_chars (fun x => negb (Ascii.eqb x c)) s = true.
Proof.
  induction s as [|x s IH]; cbn; [tauto|].
  rewrite andb_true_iff, <- IH.
  destruct (rfind c s); destruct (Ascii.eqb x c); cbn; split;
    try discriminate; try tauto; intros [? ?]; discriminate.
Qed.

Lemma rfind_append (c : ascii) (a b : string) :
  rfind c (a ++ b) =
    match rfind c b with
    | Some i => Some (String.length a + i)%nat
    | None => rfind c a
    end.
Proof.
  induction a as [|x a IH]; cbn.
  - destruct (rfind c b); reflexivity.
  - rewrite IH. destruct (rfind c b); reflexivity.
Qed.

Lemma rfind_lt (c : ascii) (s : string) (i : nat) :
  rfind c s = Some i -> (i < String.length s)%nat.
Proof.
  revert i; induction s as [|x s IH]; cbn; intros i; [discriminate|].
  destruct (rfind c s) as [j|].
  - intros [= <-]. specialize (IH j eq_refl). lia.
  - destruct (Ascii.eqb x c); [intros [= <-]; lia | discriminate].
Qed.

(** In a non-empty run of [c], the last one is at the end. *)
Lemma rfind_run (c : ascii) (s : string) :
  all_chars (fun x => Ascii.eqb x c) s = true -> s <> "" ->
  rfind c s = Some (String.length s - 1)%nat.
Proof.
  induction s as [|x s IH]; cbn; [congruence|].
  rewrite andb_true_iff. intros [Hx Hs] _.
  destruct s as [|y s].
  - cbn. rewrite Hx. reflexivity.
  - rewrite IH by (try exact Hs; discriminate).
    cbn [String.length]. f_equal. lia.
Qed.

Lemma all_chars_append (q : ascii -> bool) (a b : string) :
  all_chars q (a ++ b) = (all_chars q a && all_chars q b)%bool.
Proof.
  induction a as [|x a IH]; cbn; [reflexivity|].
  rewrite IH, andb_assoc. reflexivity.
Qed.

Lemma all_chars_impl (q r : ascii -> bool) (s : string) :
  (forall c, q c = true -> r c = true) ->
  all_chars q s = true -> all_chars r s = true.
Proof.
  intros Hqr; induction s as [|x s IH]; cbn; [reflexivity|].
  rewrite !andb_true_iff. intros [Hx Hs]. split; [apply Hqr, Hx | apply IH, Hs].
Qed.

End Strings.

(** ** Splitting off the extension *)

Section Splitext.

Local Open Scope string_scope.
Import OsPath.

Lemma char_at_append (a : string) (c : ascii) (r : string) :
  char_at (String.length a) (a ++ String c r) = String c "".
Proof. unfold char_at. rewrite drop_append_length. reflexivity. Qed.

Lemma append_snoc (a : string) (c : ascii) (r : string) :
  a ++ String c r = (a ++ String c "") ++ r.
Proof. rewrite append_assoc. reflexivity. Qed.

Lemma length_snoc (a : string) (c : ascii) :
  String.length (a ++ String c "") = S (String.length a).
Proof. rewrite length_append. cbn. lia. Qed.

Lemma is_dot_eq (c : ascii) : is_dot c = true -> c = "."%char.
Proof. apply Ascii.eqb_eq. Qed.

(** The dot-skipping loop runs through a run of leading dots ... *)
Lemma only_dots_within (n : nat) :
  forall a dots r,
    all_chars is_dot dots = true -> (n <= String.length dots)%nat ->
    only_dots (a ++ dots ++ r) (String.length a) n = true.
Proof.
  induction n as [|k IH]; intros a dots r Hdots Hn; [reflexivity|].
  destruct dots as [|x dots]; [cbn in Hn; lia|].
  cbn in Hdots, Hn. apply andb_true_iff in Hdots as [Hx Hdots].
  apply is_dot_eq in Hx; subst x.
  cbn [only_dots append]. rewrite char_at_append. cbn [String.eqb extsep].
  rewrite Ascii.eqb_refl. cbn [String.eqb].
  rewrite append_snoc, <- length_snoc with (c := "."%char).
  apply IH; [exact Hdots | lia].
Qed.

(** ... and stops at the first character after it that is not a dot. *)
Lemma only_dots_beyond (n : nat) :
  forall a dots c r,
    all_chars is_dot dots = true -> not_dot c = true ->
    (String.length dots < n)%nat ->
    only_dots (a ++ dots ++ String c r) (String.length a) n = false.
Proof.
  induction n as [|k IH]; intros a dots c r Hdots Hc Hn; [lia|].
  destruct dots as [|x dots].
  - cbn [only_dots append]. rewrite char_at_append.
    unfold not_dot, is_dot in Hc. apply negb_true_iff in Hc.
    cbn [String.eqb extsep]. rewrite Hc. reflexivity.
  - cbn in Hdots, Hn. apply andb_true_iff in Hdots as [Hx Hdots].
    apply is_dot_eq in Hx; subst x.
    cbn [only_dots append]. rewrite char_at_append. cbn [String.eqb extsep].
    rewrite Ascii.eqb_refl. cbn [String.eqb].
    rewrite append_snoc, <- length_snoc with (c := "."%char).
    apply IH; [exact Hdots | exact Hc | lia].
Qed.

Lemma rfind_sep_dir (dir rest : string) :
  dir_prefix dir -> all_chars not_sep rest = true ->
  index_Z (rfind "/" (dir ++ rest)) + 1 = Z.of_nat (String.length dir).
Proof.
  intros Hdir Hrest.
  rewrite rfind_append.
  apply rfind_none in Hrest. rewrite Hrest.
  destruct Hdir as [-> | [d' ->]]; [reflexivity|].
  rewrite rfind_append, length_append. cbn. lia.
Qed.

Lemma all_dots_not_sep (dots : string) :
  all_chars is_dot dots = true -> all_chars not_sep dots = true.
Proof.
  apply all_chars_impl. intros c Hc. apply is_dot_eq in Hc; subst c.
  reflexivity.
Qed.

Lemma plain_not_sep (s : string) :
  all_chars plain s = true -> all_chars not_sep s = true.
Proof.
  apply all_chars_impl. unfold plain. intros c Hc.
  apply andb_true_iff in Hc. tauto.
Qed.

Lemma plain_not_dot (s : string) :
  all_chars plain s = true -> all_chars not_dot s = true.
Proof.
  apply all_chars_impl. unfold plain. intros c Hc.
  apply andb_true_iff in Hc. tauto.
Qed.

(** No extension is recognised in a name made of leading dots followed by
    characters that are not dots. *)
Lemma splitext_dotfile (dir dots name : string) :
  dir_prefix dir -> all_chars is_dot dots = true ->
  all_chars plain name = true ->
  splitext (dir ++ dots ++ name) = (dir ++ dots ++ name, "").
Proof.
  intros Hdir Hdots Hname.
  pose proof (rfind_sep_dir dir (dots ++ name) Hdir) as Hsep.
  rewrite all_chars_append, (all_dots_not_sep _ Hdots),
    (plain_not_sep _ Hname) in Hsep.
  specialize (Hsep eq_refl).
  unfold splitext.
  set (p := dir ++ dots ++ name) in *.
  set (sepIndex := index_Z (rfind "/" p)) in *.
  assert (Hno : rfind "." name = None)
    by (apply rfind_none; exact (plain_not_dot _ Hname)).
  assert (Hcases : dots = "" \/ dots <> "")
    by (destruct dots; [left; reflexivity | right; discriminate]).
  destruct Hcases as [Edots | Edots].
  - assert (Hle : (index_Z (rfind "." p) >? sepIndex) = false).
    { rewrite Z.gtb_ltb. apply Z.ltb_ge. subst p dots. cbn [append].
      rewrite rfind_append, Hno.
      destruct (rfind "." dir) as [i|] eqn:Hi; cbn [index_Z]; [|lia].
      apply rfind_lt in Hi. lia. }
    rewrite Hle. reflexivity.
  - assert (Hdot : rfind "." p
                   = Some (String.length dir + (String.length dots - 1))%nat).
    { subst p. rewrite rfind_append, rfind_append, Hno.
      rewrite (rfind_run "." dots Hdots Edots). reflexivity. }
    rewrite Hdot. cbn [index_Z].
    destruct (_ >? sepIndex); [|reflexivity].
    replace (Z.to_nat (sepIndex + 1)) with (String.length dir) by lia.
    subst p. rewrite only_dots_within; [reflexivity | exact Hdots | lia].
Qed.

(** The last extension is split off a name that has other characters than
    dots before its last dot. *)
Lemma splitext_extension (dir dots : string) (c : ascii) (stem ext : string) :
  dir_prefix dir -> all_chars is_dot dots = true ->
  plain c = true -> all_chars not_sep stem = true ->
  all_chars plain ext = true ->
  splitext (dir ++ dots ++ String c stem ++ "." ++ ext)
  = (dir ++ dots ++ String c stem, "." ++ ext).
Proof.
  intros Hdir Hdots Hc Hstem Hext.
  apply andb_true_iff in Hc as [Hcd Hcs].
  pose proof (rfind_sep_dir dir (dots ++ String c stem ++ "." ++ ext) Hdir)
    as Hsep.
  rewrite !all_chars_append, (all_dots_not_sep _ Hdots) in Hsep.
  cbn [all_chars] in Hsep.
  rewrite Hcs, Hstem, (plain_not_sep _ Hext) in Hsep.
  specialize (Hsep eq_refl).
  unfold splitext.
  set (p := dir ++ dots ++ String c stem ++ "." ++ ext) in *.
  set (sepIndex := index_Z (rfind "/" p)) in *.
  set (base := dir ++ dots ++ String c stem).
  assert (Hp : p = base ++ "." ++ ext).
  { subst p base. rewrite !append_assoc. reflexivity. }
  assert (Hbase : String.length base
                  = (String.length dir + String.length dots
                     + S (String.length stem))%nat).
  { subst base. rewrite !length_append. cbn. lia. }
  assert (Hdot : rfind "." p = Some (String.length base)).
  { rewrite Hp, rfind_append. cbn [append rfind].
    assert (Hno : rfind "." ext = None)
      by (apply rfind_none; exact (plain_not_dot _ Hext)).
    rewrite Hno. cbn. f_equal. lia. }
  rewrite Hdot. cbn [index_Z].
  assert (Hgt : (Z.of_nat (String.length base) >? sepIndex) = true).
  { rewrite Z.gtb_ltb. apply Z.ltb_lt. lia. }
  rewrite Hgt.
  replace (Z.to_nat (sepIndex + 1)) with (String.length dir) by lia.
  rewrite Nat2Z.id.
  assert (Hloop : only_dots p (String.length dir)
                    (String.length base - String.length dir) = false).
  { subst p. cbn [append]. apply only_dots_beyond; [exact Hdots|exact Hcd|lia]. }
  rewrite Hloop, Hp, take_append_length, drop_append_length. reflexivity.
Qed.

Lemma splitext_append (p : string) :
  fst (splitext p) ++ snd (splitext p) = p.
Proof.
  unfold splitext.
  destruct (_ >? _); [|apply append_nil_r].
  destruct (only_dots _ _ _); [apply append_nil_r | apply take_drop].
Qed.

End Splitext.

(** ** Properties of the decoder *)

(** C1: for every width > 0 and height > 0 and every file holding exactly
    width*height*2 bytes, [load_raw_image] returns a grid of [height] rows of
    [width] samples, and flattening that grid back to bytes in the same byte
    order gives the bytes of the file. *)
Theorem load_raw_image_roundtrip (e : env) (p : string) (w h : Z)
  (bo : string) (buf : list byte) :
  0 < w -> 0 < h ->
  content_of e p = inr buf ->
  Z.of_nat (List.length buf) = w * h * 2 ->
  exists image,
    fst (load_raw_image e p w h bo) = Return image
    /\ List.length image = Z.to_nat h
    /\ Forall (fun row => List.length row = Z.to_nat w) image
    /\ tobytes (dtype_of bo) image = buf.
Proof.
  intros Hw Hh Hc Hlen.
  rewrite (load_raw_image_exact e p w h bo buf Hc) by lia.
  eexists; split; [reflexivity|].
  assert (Hn : List.length (Np.items (dtype_of bo) buf)
               = (Z.to_nat h * Z.to_nat w)%nat).
  { pose proof (items_size (dtype_of bo) buf (w * h) Hlen) as Hs.
    unfold Np.size in Hs. nia. }
  split; [apply rows_length|].
  split; [apply rows_widths, Hn|].
  unfold tobytes. rewrite rows_flat_map by exact Hn.
  apply items_bytes.
  assert (Hb : List.length buf = (2 * Z.to_nat (w * h))%nat) by lia.
  rewrite Hb, Nat.even_mul. reflexivity.
Qed.

Lemma load_raw_image_roundtrip_witness :
  exists image,
    fst (load_raw_image Sample.fs "d/a.raw" 2 2 "little") = Return image
    /\ List.length image = Z.to_nat 2
    /\ Forall (fun row => List.length row = Z.to_nat 2) image
    /\ tobytes (dtype_of "little") image = Sample.good.
Proof.
  apply (load_raw_image_roundtrip Sample.fs "d/a.raw" 2 2 "little" Sample.good);
    [lia | lia | reflexivity | reflexivity].
Defined.

(** The item at index [i] is made of the bytes at [2i] and [2i + 1]. *)
Lemma items_nth_error (dt : Np.dtype) (buf : list byte) :
  forall (i : nat) (b0 b1 : byte),
    nth_error buf (2 * i) = Some b0 ->
    nth_error buf (2 * i + 1) = Some b1 ->
    nth_error (Np.items dt buf) i = Some (Np.item dt b0 b1).
Proof.
  induction buf as [| b | c0 c1 rest IH] using pairs_ind; intros i b0 b1 H0 H1.
  - destruct i; discriminate.
  - destruct i as [|i]; [discriminate|].
    replace (2 * S i)%nat with (S (S (2 * i))) in H0 by lia.
    cbn in H0. destruct (2 * i)%nat; discriminate.
  - destruct i as [|i].
    + cbn in H0, H1. injection H0 as <-. injection H1 as <-. reflexivity.
    + replace (2 * S i)%nat with (S (S (2 * i))) in H0 by lia.
      replace (2 * S i + 1)%nat with (S (S (2 * i + 1))) in H1 by lia.
      cbn [nth_error Np.items] in *. apply IH; assumption.
Qed.

(** C6: in every file of width*height*2 bytes, every 2-byte group [b0, b1]
    (the bytes at 2i and 2i+1) decodes to the sample b0 + 256*b1 under
    "little" (low-order byte first) and to 256*b0 + b1 under "big"
    (high-order byte first), found at row i div width, column i mod width
    of the grid; the bytes [0x01, 0x02] give 0x0201 and 0x0102. *)
Theorem byte_order_sensitivity (e : env) (p : string) (w h : Z)
  (buf : list byte) (i : nat) (b0 b1 : byte) :
  0 < w -> 0 < h ->
  content_of e p = inr buf ->
  Z.of_nat (List.length buf) = w * h * 2 ->
  nth_error buf (2 * i) = Some b0 ->
  nth_error buf (2 * i + 1) = Some b1 ->
  (exists image,
     fst (load_raw_image e p w h "little") = Return image
     /\ nth_error (nth (i / Z.to_nat w) image []) (i mod Z.to_nat w)
        = Some (Np.byte_Z b0 + 256 * Np.byte_Z b1))
  /\ (exists image,
        fst (load_raw_image e p w h "big") = Return image
        /\ nth_error (nth (i / Z.to_nat w) image []) (i mod Z.to_nat w)
           = Some (256 * Np.byte_Z b0 + Np.byte_Z b1))
  /\ Np.items (dtype_of "little") [x01; x02] = [0x0201]
  /\ Np.items (dtype_of "big") [x01; x02] = [0x0102].
Proof.
  intros Hw Hh Hc Hlen H0 H1.
  assert (Hi : (i < Z.to_nat h * Z.to_nat w)%nat).
  { assert (Hlt : (2 * i + 1 < List.length buf)%nat)
      by (apply nth_error_Some; congruence).
    nia. }
  split; [|split; [|split; reflexivity]].
  - eexists. rewrite (load_raw_image_exact e p w h _ buf Hc Hw Hh Hlen).
    split; [reflexivity|].
    rewrite rows_nth_error by exact Hi.
    apply (items_nth_error Np.u2_le buf i b0 b1 H0 H1).
  - eexists. rewrite (load_raw_image_exact e p w h _ buf Hc Hw Hh Hlen).
    split; [reflexivity|].
    rewrite rows_nth_error by exact Hi.
    apply (items_nth_error Np.u2_be buf i b0 b1 H0 H1).
Qed.

Lemma byte_order_sensitivity_witness :
  (exists image,
     fst (load_raw_image Sample.fs "one.raw" 1 1 "little") = Return image
     /\ nth_error (nth (0 / Z.to_nat 1) image []) (0 mod Z.to_nat 1)
        = Some (Np.byte_Z x01 + 256 * Np.byte_Z x02))
  /\ (exists image,
        fst (load_raw_image Sample.fs "d/a.raw" 2 2 "big") = Return image
        /\ nth_error (nth (2 / Z.to_nat 2) image []) (2 mod Z.to_nat 2)
           = Some (256 * Np.byte_Z x1e + Np.byte_Z x00)).
Proof.
  split.
  - apply (byte_order_sensitivity Sample.fs "one.raw" 1 1 [x01; x02] 0 x01 x02);
      [lia | lia | reflexivity | reflexivity | reflexivity | reflexivity].
  - apply (byte_order_sensitivity Sample.fs "d/a.raw" 2 2 Sample.good 2 x1e x00);
      [lia | lia | reflexivity | reflexivity | reflexivity | reflexivity].
Defined.

(** C7: reshaping is row-major: for every sample index i below
    width*height, sample i of the flat sequence is at row i div width,
    column i mod width of the grid; the little-endian bytes of the samples
    10, 20, 30, 40 with width 2 and height 2 give [[10,20],[30,40]]. *)
Theorem reshape_row_major (e : env) (p : string) (w h : Z) (bo : string)
  (buf : list byte) (i : nat) :
  0 < w -> 0 < h ->
  content_of e p = inr buf ->
  Z.of_nat (List.length buf) = w * h * 2 ->
  Z.of_nat i < w * h ->
  (exists image sample,
     fst (load_raw_image e p w h bo) = Return image
     /\ nth_error (Np.items (dtype_of bo) buf) i = Some sample
     /\ nth_error (nth (i / Z.to_nat w) image []) (i mod Z.to_nat w)
        = Some sample)
  /\ flat_map (item_bytes Np.u2_le) [10; 20; 30; 40] = Sample.good
  /\ fst (load_raw_image Sample.fs "d/a.raw" 2 2 "little")
     = Return [[10; 20]; [30; 40]].
Proof.
  intros Hw Hh Hc Hlen Hi.
  split; [|split; reflexivity].
  rewrite (load_raw_image_exact e p w h bo buf Hc) by lia.
  pose proof (items_size (dtype_of bo) buf (w * h) Hlen) as Hs.
  unfold Np.size in Hs.
  destruct (nth_error (Np.items (dtype_of bo) buf) i) as [sample|] eqn:Hnth.
  - exists (Np.rows (Z.to_nat h) (Z.to_nat w) (Np.items (dtype_of bo) buf)),
           sample.
    split; [reflexivity|]. split; [reflexivity|].
    rewrite rows_nth_error by nia. exact Hnth.
  - apply nth_error_None in Hnth. lia.
Qed.

Lemma reshape_row_major_witness :
  exists image sample,
    fst (load_raw_image Sample.fs "d/a.raw" 2 2 "little") = Return image
    /\ nth_error (Np.items (dtype_of "little") Sample.good) 2 = Some sample
    /\ nth_error (nth (2 / Z.to_nat 2) image []) (2 mod Z.to_nat 2)
       = Some sample.
Proof.
  apply (reshape_row_major Sample.fs "d/a.raw" 2 2 "little" Sample.good 2%nat);
    [lia | lia | reflexivity | reflexivity | reflexivity].
Defined.

(** C2: when the size of an accessible file differs from width*height*2,
    the decode path (size validation, then sample read) raises the size
    mismatch error, whose message carries the expected and the actual byte
    counts, after the size query alone: no sample is read.  When the size
    equals width*height*2, the size validation succeeds. *)
Theorem size_mismatch_rejected (e : env) (p : string) (w h : Z) (bo : string)
  (n : Z) :
  getsize_of e p = inr n ->
  (n <> w * h * 2 ->
   (validate_file_size e p w h ;;; load_raw_image e p w h bo)
   = (Raise (PyExc ValueError
               ("File size mismatch: expected " ++ str_of_int (w * h * 2)
                ++ " bytes for " ++ str_of_int w ++ "x" ++ str_of_int h
                ++ "x16b, but got " ++ str_of_int n ++ " bytes.")),
      [GetSize p])
   /\ fromfile_paths
        (snd (validate_file_size e p w h ;;; load_raw_image e p w h bo)) = [])
  /\ (n = w * h * 2 -> validate_file_size e p w h = (Return tt, [GetSize p])).
Proof.
  intros Hn. rewrite (validate_file_size_run e p w h n Hn).
  split.
  - intros Hne. apply Z.eqb_neq in Hne. rewrite Hne. split; reflexivity.
  - intros ->. rewrite Z.eqb_refl. reflexivity.
Qed.

Lemma size_mismatch_rejected_witness :
  (validate_file_size Sample.fs "d/b.RAW" 2 2 ;;;
   load_raw_image Sample.fs "d/b.RAW" 2 2 "little")
  = (Raise (PyExc ValueError
              "File size mismatch: expected 8 bytes for 2x2x16b, but got 6 bytes."),
     [GetSize "d/b.RAW"])
  /\ validate_file_size Sample.fs "d/a.raw" 2 2 = (Return tt, [GetSize "d/a.raw"]).
Proof.
  split.
  - apply (size_mismatch_rejected Sample.fs "d/b.RAW" 2 2 "little" 6);
      [reflexivity | lia].
  - apply (size_mismatch_rejected Sample.fs "d/a.raw" 2 2 "little" 8);
      [reflexivity | reflexivity].
Defined.

(** ** The exit status *)

Section Main.

Variable e : env.

Lemma for_each_eprint (f : string -> string) (l : list string) :
  fst (for_each l (fun msg _ => eprint (f msg)) tt) = Return tt.
Proof.
  induction l as [|x l IH]; [reflexivity|].
  cbn [for_each]. rewrite bind_fst. cbn. exact IH.
Qed.

Lemma invalid_geometry_test (args : Namespace) :
  ((width args <=? 0) || (height args <=? 0))%bool = true
  <-> width args <= 0 \/ height args <= 0.
Proof. rewrite orb_true_iff, !Z.leb_le. reflexivity. Qed.

Lemma main_invalid_geometry (args : Namespace) :
  width args <= 0 \/ height args <= 0 ->
  main e args =
    (Return 2, [Stderr "Error: width and height must be positive integers."]).
Proof.
  intros Hbad. apply invalid_geometry_test in Hbad.
  unfold main. rewrite Hbad. reflexivity.
Qed.

Lemma main_directory (args : Namespace) (r : BatchResult) :
  0 < width args -> 0 < height args ->
  isdir_of e (input args) = true ->
  fst (convert_raw_directory_to_fits e (input args) (width args)
         (height args) (byteorder args)) = Return r ->
  fst (main e args) = Return (if len (failed r) =? 0 then 0 else 1).
Proof.
  intros Hw Hh Hdir Hr.
  unfold main.
  assert (Hgeo : ((width args <=? 0) || (height args <=? 0))%bool = false).
  { apply orb_false_iff. split; apply Z.leb_gt; assumption. }
  rewrite Hgeo.
  rewrite bind_fst.
  change (fst (Os.isdir e (input args)))
    with (Return (A := bool) (isdir_of e (input args))).
  rewrite Hdir. cbv beta iota.
  rewrite bind_fst.
  step_returns tt; [destruct (truthy (output args)); reflexivity|].
  rewrite bind_fst, Hr. cbv beta iota.
  rewrite bind_fst. cbn [print emit fst].
  rewrite bind_fst.
  step_returns tt; [|reflexivity].
  destruct (failed r); [reflexivity|].
  apply (for_each_eprint (fun msg => ("Failed: " ++ msg)%string)).
Qed.

Lemma main_single_file (args : Namespace) :
  0 < width args -> 0 < height args ->
  isdir_of e (input args) = false ->
  fst (main e args) = Return 0 \/ fst (main e args) = Return 1.
Proof.
  intros Hw Hh Hdir.
  assert (Hgeo : ((width args <=? 0) || (height args <=? 0))%bool = false).
  { apply orb_false_iff. split; apply Z.leb_gt; assumption. }
  assert (H : exists c, fst (main e args) = Return c /\ (c = 0 \/ c = 1)).
  { unfold main. rewrite Hgeo, bind_fst.
    change (fst (Os.isdir e (input args)))
      with (Return (A := bool) (isdir_of e (input args))).
    rewrite Hdir. cbv beta iota.
    set (out := if truthy (output args) then _ else _).
    destruct (validate_file_size e (input args) (width args) (height args))
      as [[[]|err] l1]; cbn; [|eauto].
    destruct (load_raw_image e (input args) (width args) (height args)
                (byteorder args)) as [[image|err] l2]; cbn; [|eauto].
    destruct (write_fits e image out (input args) (width args) (height args)
                (byteorder args)) as [[[]|err] l3]; cbn; eauto. }
  destruct H as (c & -> & [-> | ->]); [left | right]; reflexivity.
Qed.

End Main.

(** ** Properties of the batch driver *)

Section BatchFacts.

Variable e : env.
Variables (w h : Z) (bo : string).

Lemma flat_map_singleton {A B} (f : A -> B) (l : list A) :
  flat_map (fun x => [f x]) l = map f l.
Proof. induction l as [|x l IH]; cbn; [|rewrite IH]; reflexivity. Qed.

(** A projection of the log that ignores directory listings is made of the
    projections of the attempts, candidate after candidate. *)
Lemma batch_log_project {B} (g : event -> list B)
  (triples : list (string * list string * list string)) :
  (forall d, g (ScanDir d) = []) ->
  flat_map g (batch_log e w h bo triples) =
    flat_map (fun p => flat_map g (attempt_log e w h bo p))
      (walk_candidates triples).
Proof.
  intros Hscan. unfold batch_log, walk_candidates.
  rewrite !flat_map_flat_map.
  apply flat_map_ext. intros [[d dn] fns].
  cbn [flat_map]. rewrite Hscan, flat_map_flat_map. reflexivity.
Qed.

Lemma convert_one_value (p o : string) :
  fst (convert_one e p w h bo) = Return o -> o = derive_output_path p.
Proof.
  unfold convert_one. cbv zeta.
  destruct (validate_file_size e p w h) as [[[]|err] l1]; cbn;
    [|discriminate].
  destruct (load_raw_image e p w h bo) as [[image|err] l2]; cbn;
    [|discriminate].
  destruct (write_fits e image (derive_output_path p) p w h bo)
    as [[[]|err] l3]; cbn; [|discriminate].
  intros [= <-]. reflexivity.
Qed.

Lemma written_by_filter (l : list string) :
  flat_map (written_by e w h bo) l =
    map derive_output_path (filter (succeeds e w h bo) l).
Proof.
  induction l as [|p l IH]; cbn; [reflexivity|].
  unfold written_by at 1. destruct (succeeds e w h bo p); cbn; rewrite IH;
    reflexivity.
Qed.

Lemma failed_by_filter (l : list string) :
  flat_map (failed_by e w h bo) l =
    map (failure_line e w h bo)
      (filter (fun p => negb (succeeds e w h bo p)) l).
Proof.
  induction l as [|p l IH]; cbn; [reflexivity|].
  unfold failed_by at 1. destruct (succeeds e w h bo p); cbn; rewrite IH;
    reflexivity.
Qed.

Lemma outcome_count (l : list string) :
  (List.length (flat_map (written_by e w h bo) l)
   + List.length (flat_map (failed_by e w h bo) l))%nat = List.length l.
Proof.
  induction l as [|p l IH]; cbn; [reflexivity|].
  rewrite !length_app. unfold written_by at 1, failed_by at 1.
  destruct (succeeds e w h bo p); cbn; lia.
Qed.

End BatchFacts.

(** C4: a directory batch never raises.  Every candidate is attempted
    exactly once, in order: the size queries of the run are the candidate
    list itself.  A candidate whose conversion returns the output path adds
    that path to [written] and nothing to [failed]; one whose conversion
    raises [err] adds nothing to [written] and the string
    "<input path>: <message of err>" to [failed]; and the lists of the result
    collect these contributions over all the candidates. *)
Theorem batch_attempts_each_candidate (e : env) (root : string) (w h : Z)
  (bo : string) :
  exists r log,
    convert_raw_directory_to_fits e root w h bo = (Return r, log)
    /\ getsize_paths log = candidates e root
    /\ written r = flat_map (written_by e w h bo) (candidates e root)
    /\ failed r = flat_map (failed_by e w h bo) (candidates e root)
    /\ (forall p o,
          fst (convert_one e p w h bo) = Return o ->
          o = derive_output_path p
          /\ written_by e w h bo p = [o] /\ failed_by e w h bo p = [])
    /\ (forall p err,
          fst (convert_one e p w h bo) = Raise err ->
          written_by e w h bo p = []
          /\ failed_by e w h bo p = [(p ++ ": " ++ str_exn err)%string]).
Proof.
  rewrite convert_raw_directory_to_fits_run, walk_candidates_env.
  do 2 eexists. split; [reflexivity|].
  split.
  { unfold getsize_paths. rewrite batch_log_project by reflexivity.
    rewrite walk_candidates_env.
    transitivity (map (fun p : string => p) (candidates e root));
      [|apply map_id].
    rewrite <- flat_map_singleton. apply flat_map_ext.
    intros p. cbn. apply convert_one_getsize. }
  split; [reflexivity|]. split; [reflexivity|].
  split.
  - intros p o Ho. pose proof (convert_one_value e w h bo p o Ho) as ->.
    unfold written_by, failed_by, succeeds. rewrite Ho. auto.
  - intros p err Herr.
    unfold written_by, failed_by, succeeds, failure_line. rewrite Herr. auto.
Qed.

Lemma batch_attempts_each_candidate_witness :
  exists r log,
    convert_raw_directory_to_fits Sample.fs "d" 2 2 "little" = (Return r, log)
    /\ getsize_paths log = ["d/a.raw"; "d/b.RAW"; "d/sub/c.raw"; "d/sub/.raw"]
    /\ written r = ["d/a.fits"; "d/sub/c.fits"; "d/sub/.raw.fits"]
    /\ failed r =
         ["d/b.RAW: File size mismatch: expected 8 bytes for 2x2x16b, but got 6 bytes."].
Proof.
  destruct (batch_attempts_each_candidate Sample.fs "d" 2 2 "little")
    as (r & log & Hrun & Hsizes & Hw & Hf & _).
  exists r, log. repeat split; [exact Hrun | exact Hsizes | | ].
  - rewrite Hw. reflexivity.
  - rewrite Hf. reflexivity.
Defined.

(** C8: directory mode selects exactly the files of the tree under the
    root whose names end in ".raw" whatever the letter case ("x.raw" and
    "x.RAW" are selected, "x.rawdata" is not), and attempts them in the
    order in which [os.walk] discovers them: the run announces each
    candidate and then converts it, so that its size queries are those of
    the candidates in that order, and its whole log is, directory after
    directory, the announcement and the conversion of each candidate. *)
Theorem candidate_selection (e : env) (root : string) (t : tree) (w h : Z)
  (bo : string) :
  tree_of e root = Some t ->
  stdout_lines (snd (convert_raw_directory_to_fits e root w h bo))
    = map (fun p => ("Processing: " ++ p)%string)
        (walk_candidates (Os.walk e root))
  /\ getsize_paths (snd (convert_raw_directory_to_fits e root w h bo))
     = walk_candidates (Os.walk e root)
  /\ snd (convert_raw_directory_to_fits e root w h bo)
     = batch_log e w h bo (Os.walk e root)
  /\ walk_candidates (Os.walk e root) = tree_candidates root t
  /\ (forall p,
        In p (walk_candidates (Os.walk e root)) <->
        exists d f,
          tree_file root t d f /\ has_raw_extension f /\ p = OsPath.join d f)
  /\ is_raw "x.raw" = true /\ is_raw "x.RAW" = true
  /\ is_raw "x.rawdata" = false.
Proof.
  intros Ht.
  assert (Hc : walk_candidates (Os.walk e root) = tree_candidates root t).
  { rewrite walk_candidates_env. unfold candidates. rewrite Ht. reflexivity. }
  rewrite convert_raw_directory_to_fits_run. cbn [snd].
  split.
  { unfold stdout_lines. rewrite batch_log_project by reflexivity.
    rewrite <- flat_map_singleton. apply flat_map_ext.
    intros p. unfold attempt_log. cbn [flat_map].
    fold (stdout_lines (snd (convert_one e p w h bo))).
    rewrite convert_one_stdout. reflexivity. }
  split.
  { unfold getsize_paths. rewrite batch_log_project by reflexivity.
    transitivity (map (fun p : string => p) (walk_candidates (Os.walk e root)));
      [|apply map_id].
    rewrite <- flat_map_singleton. apply flat_map_ext.
    intros p. cbn. apply convert_one_getsize. }
  split; [reflexivity|].
  split; [exact Hc|].
  split; [|repeat split; reflexivity].
  intros p. rewrite Hc, tree_candidates_spec.
  split; intros (d & f & Htf & Hraw & Hp); exists d, f;
    (split; [exact Htf|]); (split; [|exact Hp]); apply is_raw_spec; exact Hraw.
Qed.

Lemma candidate_selection_witness :
  stdout_lines (snd (convert_raw_directory_to_fits Sample.fs "d" 2 2 "little"))
    = ["Processing: d/a.raw"; "Processing: d/b.RAW";
       "Processing: d/sub/c.raw"; "Processing: d/sub/.raw"]
  /\ getsize_paths
       (snd (convert_raw_directory_to_fits Sample.fs "d" 2 2 "little"))
     = ["d/a.raw"; "d/b.RAW"; "d/sub/c.raw"; "d/sub/.raw"]
  /\ walk_candidates (Os.walk Sample.fs "d")
     = ["d/a.raw"; "d/b.RAW"; "d/sub/c.raw"; "d/sub/.raw"].
Proof.
  destruct (candidate_selection Sample.fs "d" Sample.d_tree 2 2 "little"
              eq_refl) as (Hlines & Hsizes & _ & Hcands & _).
  split; [rewrite Hlines; reflexivity|].
  split; [rewrite Hsizes | rewrite Hcands]; reflexivity.
Defined.

(** C9: a directory batch returns a result in which every candidate has
    exactly one entry in exactly one list: the lengths of [written] and
    [failed] add up to the number of candidates, [written] holds the output
    paths of the candidates that succeeded and [failed] the lines of those
    that failed, both in discovery order.  With no candidate, both lists are
    empty and, the geometry being valid, the exit status of directory mode
    is 0. *)
Theorem batch_result_invariant (e : env) (args : Namespace) :
  let root := input args in
  let w := width args in
  let h := height args in
  let bo := byteorder args in
  exists r,
    fst (convert_raw_directory_to_fits e root w h bo) = Return r
    /\ (List.length (written r) + List.length (failed r))%nat
       = List.length (candidates e root)
    /\ written r
       = map derive_output_path
           (filter (succeeds e w h bo) (candidates e root))
    /\ failed r
       = map (failure_line e w h bo)
           (filter (fun p => negb (succeeds e w h bo p)) (candidates e root))
    /\ (candidates e root = [] ->
        written r = [] /\ failed r = []
        /\ (0 < w -> 0 < h -> isdir_of e root = true ->
            fst (main e args) = Return 0)).
Proof.
  intros root w h bo.
  pose proof (convert_raw_directory_to_fits_run e w h bo root) as Hrun.
  rewrite walk_candidates_env in Hrun.
  eexists. split; [rewrite Hrun; reflexivity|]. cbn [written failed].
  fold root in Hrun.
  split; [apply outcome_count|].
  split; [apply written_by_filter|].
  split; [apply failed_by_filter|].
  intros Hnone. rewrite Hnone. cbn [flat_map].
  split; [reflexivity|]. split; [reflexivity|].
  intros Hw Hh Hdir.
  apply (f_equal fst) in Hrun. cbn [fst] in Hrun.
  rewrite (main_directory e args _ Hw Hh Hdir Hrun).
  cbn [failed]. fold root. rewrite Hnone. reflexivity.
Qed.

Lemma batch_result_invariant_witness :
  exists r,
    fst (convert_raw_directory_to_fits Sample.fs "empty" 2 2 "little")
      = Return r
    /\ written r = [] /\ failed r = []
    /\ fst (main Sample.fs (Sample.args "empty" 2 2)) = Return 0.
Proof.
  destruct (batch_result_invariant Sample.fs (Sample.args "empty" 2 2))
    as (r & Hr & _ & _ & _ & Hnone).
  destruct (Hnone eq_refl) as (Hw & Hf & Hmain).
  exists r. split; [exact Hr|]. split; [exact Hw|]. split; [exact Hf|].
  apply Hmain; reflexivity.
Defined.

(** C3: in directory mode the exit status is 0 exactly when the batch has
    no failure, also when nothing was written, and 1 as soon as one
    candidate failed, whatever the number of files written. *)
Theorem directory_exit_status (e : env) (args : Namespace) (r : BatchResult) :
  0 < width args -> 0 < height args ->
  isdir_of e (input args) = true ->
  fst (convert_raw_directory_to_fits e (input args) (width args)
         (height args) (byteorder args)) = Return r ->
  (fst (main e args) = Return 0 <-> failed r = [])
  /\ (written r = [] -> failed r = [] -> fst (main e args) = Return 0)
  /\ (failed r <> [] -> fst (main e args) = Return 1).
Proof.
  intros Hw Hh Hdir Hr.
  rewrite (main_directory e args r Hw Hh Hdir Hr).
  unfold len. destruct (failed r) as [|m ms]; cbn.
  - split; [tauto|]. split; [tauto | congruence].
  - split; [split; discriminate|]. split; [discriminate | reflexivity].
Qed.

Lemma directory_exit_status_witness :
  fst (main Sample.fs (Sample.args "d" 2 2)) = Return 1
  /\ fst (main Sample.fs (Sample.args "empty" 2 2)) = Return 0.
Proof.
  split.
  - refine (proj2 (proj2 (directory_exit_status Sample.fs (Sample.args "d" 2 2)
      {| written := ["d/a.fits"; "d/sub/c.fits"; "d/sub/.raw.fits"];
         failed := ["d/b.RAW: File size mismatch: expected 8 bytes for 2x2x16b, but got 6 bytes."] |}
      _ _ _ _)) _);
      [reflexivity | reflexivity | reflexivity | reflexivity | discriminate].
  - refine (proj1 (proj2 (directory_exit_status Sample.fs
      (Sample.args "empty" 2 2) {| written := []; failed := [] |}
      _ _ _ _)) _ _); reflexivity.
Defined.

(** C5: when width <= 0 or height <= 0, [main] returns the exit status 2
    after printing one error line and before any filesystem access,
    whether the input path is a directory or a file; 2 is returned in no
    other case, a run with a valid geometry ending with status 0 or 1. *)
Theorem invalid_geometry_rejected (e : env) (args : Namespace) :
  width args <= 0 \/ height args <= 0 ->
  main e args =
    (Return 2, [Stderr "Error: width and height must be positive integers."])
  /\ filter is_fs_access (snd (main e args)) = []
  /\ (forall e' args',
        0 < width args' -> 0 < height args' ->
        fst (main e' args') = Return 0 \/ fst (main e' args') = Return 1).
Proof.
  intros Hbad. rewrite (main_invalid_geometry e args Hbad).
  split; [reflexivity|]. split; [reflexivity|].
  intros e' args' Hw Hh.
  destruct (isdir_of e' (input args')) eqn:Hdir.
  - pose proof (convert_raw_directory_to_fits_run e' (width args')
                  (height args') (byteorder args') (input args')) as Hrun.
    apply (f_equal fst) in Hrun. cbn [fst] in Hrun.
    rewrite (main_directory e' args' _ Hw Hh Hdir Hrun).
    destruct (len _ =? 0); [left | right]; reflexivity.
  - apply main_single_file; assumption.
Qed.

Lemma invalid_geometry_rejected_witness :
  main Sample.fs (Sample.args "d" 0 2) =
    (Return 2, [Stderr "Error: width and height must be positive integers."])
  /\ main Sample.fs (Sample.args "one.raw" 1 (-1)) =
    (Return 2, [Stderr "Error: width and height must be positive integers."]).
Proof.
  split.
  - apply (invalid_geometry_rejected Sample.fs (Sample.args "d" 0 2)).
    left. cbn. lia.
  - apply (invalid_geometry_rejected Sample.fs (Sample.args "one.raw" 1 (-1))).
    right. cbn. lia.
Defined.

(** ** The output path *)

Section OutputPath.

Local Open Scope string_scope.

Lemma endswith_sep (d : string) :
  endswith d OsPath.sep = true -> exists d', d = d' ++ "/".
Proof.
  unfold endswith. rewrite andb_true_iff, String.eqb_eq. intros [_ Hd].
  exists (take (String.length d - String.length OsPath.sep) d).
  pose proof (take_drop (String.length d - String.length OsPath.sep) d) as H.
  rewrite Hd in H. symmetry. exact H.
Qed.

(** The path that directory mode builds for a file name that does not start
    with the separator is the name behind a directory prefix. *)
Lemma join_dir_prefix (d name : string) :
  startswith name OsPath.sep = false ->
  exists dir, dir_prefix dir /\ OsPath.join d name = dir ++ name.
Proof.
  intros Hname. unfold OsPath.join. rewrite Hname.
  destruct (String.eqb_spec d "") as [-> | Hd]; cbn [orb].
  - exists "". split; [now left | reflexivity].
  - destruct (endswith d OsPath.sep) eqn:Hend.
    + exists d. split; [right; apply endswith_sep, Hend | reflexivity].
    + exists (d ++ "/"). split; [right; now exists d|].
      unfold OsPath.sep. rewrite append_assoc. reflexivity.
Qed.

End OutputPath.

(** C10: the output path is the input path with its last extension
    replaced by ".fits" when the file name has other characters than dots
    before its last dot; for a name without a dot, or a dotfile (leading
    dots followed by no other dot), ".fits" is appended to the whole path.
    The name ".raw" passes the candidate filter, and its output path is
    ".raw.fits", in whatever directory it is found. *)
Theorem derive_output_path_cases :
  (forall dir dots name,
     dir_prefix dir -> all_chars is_dot dots = true ->
     all_chars plain name = true ->
     derive_output_path (dir ++ dots ++ name)
     = (dir ++ dots ++ name ++ ".fits")%string)
  /\ (forall dir dots c stem ext,
        dir_prefix dir -> all_chars is_dot dots = true ->
        plain c = true -> all_chars not_sep stem = true ->
        all_chars plain ext = true ->
        derive_output_path (dir ++ dots ++ String c stem ++ "." ++ ext)
        = (dir ++ dots ++ String c stem ++ ".fits")%string)
  /\ is_raw ".raw" = true
  /\ derive_output_path ".raw" = ".raw.fits"%string
  /\ (forall d,
        derive_output_path (OsPath.join d ".raw")
        = (OsPath.join d ".raw" ++ ".fits")%string).
Proof.
  assert (Hdotfile : forall dir dots name,
             dir_prefix dir -> all_chars is_dot dots = true ->
             all_chars plain name = true ->
             derive_output_path (dir ++ dots ++ name)
             = (dir ++ dots ++ name ++ ".fits")%string).
  { intros dir dots name Hdir Hdots Hname. unfold derive_output_path.
    rewrite (splitext_dotfile dir dots name Hdir Hdots Hname).
    rewrite !append_assoc. reflexivity. }
  split; [exact Hdotfile|].
  split.
  { intros dir dots c stem ext Hdir Hdots Hc Hstem Hext.
    unfold derive_output_path.
    rewrite (splitext_extension dir dots c stem ext Hdir Hdots Hc Hstem Hext).
    rewrite !append_assoc. reflexivity. }
  split; [reflexivity|]. split; [reflexivity|].
  intros d.
  destruct (join_dir_prefix d ".raw" eq_refl) as (dir & Hdir & ->).
  change (dir ++ ".raw")%string with (dir ++ "." ++ "raw")%string.
  rewrite (Hdotfile dir "." "raw" Hdir eq_refl eq_refl)%string.
  rewrite !append_assoc. reflexivity.
Qed.

Lemma derive_output_path_cases_witness :
  derive_output_path "d/sub/.raw" = "d/sub/.raw.fits"%string
  /\ derive_output_path "d/a.raw" = "d/a.fits"%string.
Proof.
  destruct derive_output_path_cases as (Hdotfile & Hext & _).
  split.
  - apply (Hdotfile "d/sub/" "." "raw")%string;
      [right; exists "d/sub"%string; reflexivity | reflexivity | reflexivity].
  - apply (Hext "d/" "" "a"%char "" "raw")%string;
      [right; exists "d"%string; reflexivity | reflexivity | reflexivity
       | reflexivity | reflexivity].
Defined.

(** ** More on the decoder *)

Section DecoderCases.

Variable e : env.

Lemma reshape_log (a : list Z) (h w : Z) : snd (Np.reshape e a h w) = [].
Proof.
  unfold Np.reshape.
  repeat match goal with |- context [if ?c then _ else _] => destruct c end;
    reflexivity.
Qed.

(** A successful reshape cuts the items into rows. *)
Lemma reshape_cases (a : list Z) (h w : Z) :
  (exists hh ww, fst (Np.reshape e a h w) = Return (Np.rows hh ww a))
  \/ (exists err, fst (Np.reshape e a h w) = Raise err).
Proof.
  unfold Np.reshape.
  repeat match goal with |- context [if ?c then _ else _] => destruct c end;
    cbn [fst ret raise]; eauto.
Qed.

(** What [load_raw_image] does once the file could be opened. *)
Lemma load_raw_image_read (p : string) (w h : Z) (bo : string)
  (buf : list byte) :
  fits_ssize (w * h) = true ->
  content_of e p = inr buf ->
  load_raw_image e p w h bo =
    (let a := items_read (dtype_of bo) (w * h) buf in
     if Np.size a =? w * h then
       match fst (Np.reshape e a h w) with
       | Return image => Return image
       | Raise err =>
           Raise (PyExc ValueError
                    ("Failed to reshape to (" ++ str_of_int h ++ ", "
                     ++ str_of_int w ++ "): " ++ str_exn err))
       end
     else
       Raise (PyExc ValueError
                ("Read " ++ str_of_int (Np.size a) ++ " pixels, expected "
                 ++ str_of_int (w * h)
                 ++ ". The file may be truncated or parameters are incorrect.")),
     [FromFile p]).
Proof.
  intros Hfit Hc. unfold load_raw_image.
  change (if String.eqb bo "little" then Np.u2_le else Np.u2_be)
    with (dtype_of bo).
  rewrite (fromfile_run e p _ _ buf Hfit Hc).
  fold (items_read (dtype_of bo) (w * h) buf).
  cbv zeta. cbn [try_except bind].
  destruct (Np.size (items_read (dtype_of bo) (w * h) buf) =? w * h);
    cbn [negb]; [|reflexivity].
  pose proof (reshape_log (items_read (dtype_of bo) (w * h) buf) h w) as Hlog.
  destruct (Np.reshape e (items_read (dtype_of bo) (w * h) buf) h w)
    as [[image|err] l]; cbn in Hlog; subst l; reflexivity.
Qed.

(** A count that does not fit raises before the file is opened. *)
Lemma load_raw_image_overflow (p : string) (w h : Z) (bo : string) :
  fits_ssize (w * h) = false ->
  load_raw_image e p w h bo =
    (Raise (PyExc RuntimeError
              ("Failed to read RAW data: " ++ overflow_msg e (w * h))), []).
Proof.
  intros Hfit. unfold load_raw_image, Np.fromfile. rewrite Hfit. reflexivity.
Qed.

Lemma items_firstn (dt : Np.dtype) (buf : list byte) :
  forall n, firstn n (Np.items dt buf) = Np.items dt (firstn (2 * n) buf).
Proof.
  induction buf as [| b | b0 b1 rest IH] using pairs_ind; intros n.
  - rewrite !firstn_nil. reflexivity.
  - destruct n as [|n]; [reflexivity|].
    replace (2 * S n)%nat with (S (S (2 * n))) by lia.
    cbn. rewrite ?firstn_nil. reflexivity.
  - destruct n as [|n]; [reflexivity|].
    replace (2 * S n)%nat with (S (S (2 * n))) by lia.
    cbn [firstn Np.items]. rewrite IH. reflexivity.
Qed.

Lemma items_u16 (dt : Np.dtype) (buf : list byte) :
  Forall is_u16 (Np.items dt buf).
Proof.
  induction buf as [| b | b0 b1 rest IH] using pairs_ind;
    cbn [Np.items]; constructor; [|exact IH].
  pose proof (byte_Z_range b0). pose proof (byte_Z_range b1).
  unfold is_u16. destruct dt; cbn [Np.item]; lia.
Qed.

Lemma Forall_firstn_skipn {A} (P : A -> Prop) (n : nat) :
  forall l, Forall P l -> Forall P (firstn n l) /\ Forall P (skipn n l).
Proof.
  induction n as [|n IH]; intros l Hl; [split; [constructor | exact Hl]|].
  destruct Hl as [|x l Hx Hl]; [split; constructor|].
  destruct (IH l Hl) as [Hf Hs]. split; [constructor; assumption | exact Hs].
Qed.

Lemma rows_Forall (P : Z -> Prop) (h w : nat) :
  forall a, Forall P a -> Forall (Forall P) (Np.rows h w a).
Proof.
  induction h as [|k IH]; intros a Ha; cbn [Np.rows]; constructor.
  - apply Forall_firstn_skipn, Ha.
  - apply IH, Forall_firstn_skipn, Ha.
Qed.

Lemma rows_map (f : Z -> Z) (h w : nat) :
  forall a, Np.rows h w (map f a) = map (map f) (Np.rows h w a).
Proof.
  induction h as [|k IH]; intros a; cbn [Np.rows map]; [reflexivity|].
  rewrite firstn_map, skipn_map, IH. reflexivity.
Qed.

Lemma swap16_item (b0 b1 : byte) :
  swap16 (Np.item Np.u2_le b0 b1) = Np.item Np.u2_be b0 b1.
Proof.
  pose proof (byte_Z_range b0). pose proof (byte_Z_range b1).
  unfold swap16, Np.item.
  rewrite (Z.mul_comm 256 (Np.byte_Z b1)), Z.mod_add, Z.div_add by lia.
  rewrite Z.mod_small, Z.div_small by lia. lia.
Qed.

Lemma items_swap (buf : list byte) :
  Np.items Np.u2_be buf = map swap16 (Np.items Np.u2_le buf).
Proof.
  induction buf as [| b | b0 b1 rest IH] using pairs_ind; [reflexivity ..|].
  cbn [Np.items map]. rewrite swap16_item, IH. reflexivity.
Qed.

Lemma items_read_swap (count : Z) (buf : list byte) :
  items_read Np.u2_be count buf = map swap16 (items_read Np.u2_le count buf).
Proof.
  unfold items_read. rewrite items_swap.
  destruct (count <? 0); [reflexivity | apply firstn_map].
Qed.

Lemma reshape_map (f : Z -> Z) (a : list Z) (h w : Z) :
  fst (Np.reshape e (map f a) h w) =
    match fst (Np.reshape e a h w) with
    | Return image => Return (map (map f) image)
    | Raise err => Raise err
    end.
Proof.
  unfold Np.reshape, Np.size. rewrite length_map.
  repeat match goal with |- context [if ?c then _ else _] => destruct c end;
    cbn [fst ret raise]; rewrite ?rows_map; reflexivity.
Qed.

End DecoderCases.

Lemma validate_file_size_inaccessible (e : env) (p : string) (w h : Z)
  (msg : string) :
  getsize_of e p = inl msg ->
  validate_file_size e p w h =
    (Raise (PyExc FileNotFoundError ("Cannot access '" ++ p ++ "': " ++ msg)),
     [GetSize p]).
Proof.
  intros Hn.
  unfold validate_file_size, try_except_OSError, Os.getsize, bind, emit.
  rewrite Hn. reflexivity.
Qed.

Lemma validate_file_size_returns (e : env) (p : string) (w h : Z) :
  fst (validate_file_size e p w h) = Return tt <->
  getsize_of e p = inr (w * h * 2).
Proof.
  destruct (getsize_of e p) as [msg|n] eqn:Hn.
  - rewrite (validate_file_size_inaccessible e p w h msg Hn).
    split; discriminate.
  - rewrite (validate_file_size_run e p w h n Hn). cbn [fst].
    destruct (Z.eqb_spec n (w * h * 2)) as [-> | Hne].
    + split; reflexivity.
    + split; [discriminate | intros [= Heq]; contradiction].
Qed.

(** X1: the size validation makes one size query and nothing else; it
    returns exactly when the reported size is width*height*2, and turns an
    [OSError] of the query into a [FileNotFoundError] that names the path. *)
Theorem validate_file_size_outcome (e : env) (p : string) (w h : Z) :
  snd (validate_file_size e p w h) = [GetSize p]
  /\ (fst (validate_file_size e p w h) = Return tt
      <-> getsize_of e p = inr (w * h * 2))
  /\ (forall msg,
        getsize_of e p = inl msg ->
        fst (validate_file_size e p w h)
        = Raise (PyExc FileNotFoundError
                   ("Cannot access '" ++ p ++ "': " ++ msg))).
Proof.
  split; [apply validate_file_size_log|].
  split; [apply validate_file_size_returns|].
  intros msg Hmsg.
  rewrite (validate_file_size_inaccessible e p w h msg Hmsg). reflexivity.
Qed.

Lemma validate_file_size_outcome_witness :
  fst (validate_file_size Sample.fs "d/missing.raw" 2 2)
  = Raise (PyExc FileNotFoundError
             "Cannot access 'd/missing.raw': [Errno 2] No such file or directory: 'd/missing.raw'").
Proof.
  apply (validate_file_size_outcome Sample.fs "d/missing.raw" 2 2).
  reflexivity.
Defined.

Lemma getsize_fits (e : env) (p : string) (w h : Z) :
  getsize_of e p = inr (w * h * 2) -> fits_ssize (w * h) = true.
Proof.
  intros Hn. apply getsize_bound in Hn.
  apply fits_ssize_iff. unfold ssize_bound in *. lia.
Qed.

(** X2: when a file that reported the size width*height*2 turns out to
    hold fewer complete 2-byte items than width*height, [load_raw_image]
    raises the [ValueError] that reports the number of items read (half the
    byte length, rounded down) and the number expected; the file is read
    once. *)
Theorem load_raw_image_truncated (e : env) (p : string) (w h : Z)
  (bo : string) (buf : list byte) :
  getsize_of e p = inr (w * h * 2) ->
  content_of e p = inr buf ->
  Z.of_nat (List.length buf / 2) < w * h ->
  load_raw_image e p w h bo =
    (Raise (PyExc ValueError
              ("Read " ++ str_of_int (Z.of_nat (List.length buf / 2))
               ++ " pixels, expected " ++ str_of_int (w * h)
               ++ ". The file may be truncated or parameters are incorrect.")),
     [FromFile p]).
Proof.
  intros Hn Hc Hshort.
  rewrite (load_raw_image_read e p w h bo buf (getsize_fits e p w h Hn) Hc).
  cbv zeta.
  assert (Ha : items_read (dtype_of bo) (w * h) buf
               = Np.items (dtype_of bo) buf).
  { unfold items_read. destruct (w * h <? 0); [reflexivity|].
    apply firstn_all2. rewrite items_length. lia. }
  rewrite Ha. unfold Np.size. rewrite items_length.
  assert (Hne : (Z.of_nat (List.length buf / 2) =? w * h) = false)
    by (apply Z.eqb_neq; lia).
  rewrite Hne. reflexivity.
Qed.

Lemma load_raw_image_truncated_witness :
  load_raw_image Sample2.fs "shrunk.raw" 2 2 "little" =
    (Raise (PyExc ValueError
              "Read 3 pixels, expected 4. The file may be truncated or parameters are incorrect."),
     [FromFile "shrunk.raw"]).
Proof.
  apply (load_raw_image_truncated Sample2.fs "shrunk.raw" 2 2 "little"
           Sample.short);
    [reflexivity | reflexivity | reflexivity].
Defined.

Lemma load_raw_image_unreadable (e : env) (p : string) (w h : Z)
  (bo : string) (msg : string) :
  fits_ssize (w * h) = true ->
  content_of e p = inl msg ->
  load_raw_image e p w h bo
  = (Raise (PyExc RuntimeError ("Failed to read RAW data: " ++ msg)),
     [FromFile p]).
Proof.
  intros Hfit Hc.
  unfold load_raw_image, Np.fromfile, bind, emit, try_except.
  rewrite Hfit, Hc. reflexivity.
Qed.

Lemma load_raw_image_success_data (e : env) (p : string) (w h : Z)
  (bo : string) (image : ndarray2) :
  fst (load_raw_image e p w h bo) = Return image ->
  exists buf,
    content_of e p = inr buf
    /\ fits_ssize (w * h) = true
    /\ 0 <= w * h <= Z.of_nat (List.length buf / 2).
Proof.
  intros Himg.
  destruct (fits_ssize (w * h)) eqn:Hfit.
  2: { rewrite (load_raw_image_overflow e p w h bo Hfit) in Himg.
       discriminate. }
  destruct (content_of e p) as [msg|buf] eqn:Hc.
  - rewrite (load_raw_image_unreadable e p w h bo msg Hfit Hc) in Himg.
    discriminate.
  - exists buf. split; [reflexivity|]. split; [reflexivity|].
    rewrite (load_raw_image_read e p w h bo buf Hfit Hc) in Himg.
    cbv zeta in Himg. cbn [fst] in Himg.
    destruct (Z.eqb_spec (Np.size (items_read (dtype_of bo) (w * h) buf))
                (w * h)) as [Hsize | Hsize]; [|discriminate].
    unfold Np.size, items_read in Hsize.
    destruct (w * h <? 0) eqn:Hneg.
    + apply Z.ltb_lt in Hneg. lia.
    + apply Z.ltb_ge in Hneg.
      rewrite length_firstn, items_length in Hsize. lia.
Qed.

(** X3: [load_raw_image] returns a grid only if the file could be read
    and holds at least width*height complete items, the product being
    non-negative.  When width*height fits a 64-bit signed integer, a file
    that cannot be read gives the [RuntimeError] carrying the text of the
    read error, after the one attempt to read; when it does not fit, the
    [RuntimeError] carries the overflow error and the file is not opened. *)
Theorem load_raw_image_needs_data (e : env) (p : string) (w h : Z)
  (bo : string) :
  (forall image,
     fst (load_raw_image e p w h bo) = Return image ->
     exists buf,
       content_of e p = inr buf
       /\ 0 <= w * h <= Z.of_nat (List.length buf / 2))
  /\ (forall msg,
        - ssize_bound <= w * h < ssize_bound ->
        content_of e p = inl msg ->
        load_raw_image e p w h bo
        = (Raise (PyExc RuntimeError ("Failed to read RAW data: " ++ msg)),
           [FromFile p]))
  /\ (~ (- ssize_bound <= w * h < ssize_bound) ->
      load_raw_image e p w h bo
      = (Raise (PyExc RuntimeError
                  ("Failed to read RAW data: " ++ overflow_msg e (w * h))),
         [])).
Proof.
  split; [|split].
  - intros image Himg.
    destruct (load_raw_image_success_data e p w h bo image Himg)
      as (buf & Hc & _ & Hrange).
    exists buf. split; assumption.
  - intros msg Hfit Hc. apply fits_ssize_iff in Hfit.
    apply load_raw_image_unreadable; assumption.
  - intros Hfit. apply load_raw_image_overflow.
    destruct (fits_ssize (w * h)) eqn:E; [|reflexivity].
    apply fits_ssize_iff in E. contradiction.
Qed.

Lemma load_raw_image_needs_data_witness :
  load_raw_image Sample2.fs "locked.raw" 2 2 "little"
  = (Raise (PyExc RuntimeError
              "Failed to read RAW data: [Errno 13] Permission denied: 'locked.raw'"),
     [FromFile "locked.raw"])
  /\ load_raw_image Sample2.fs "locked.raw" 4294967296 4294967296 "little"
     = (Raise (PyExc RuntimeError
                 "Failed to read RAW data: Python int too large to convert to C ssize_t"),
        []).
Proof.
  split.
  - apply (load_raw_image_needs_data Sample2.fs "locked.raw" 2 2 "little");
      [unfold ssize_bound; lia | reflexivity].
  - apply (load_raw_image_needs_data Sample2.fs "locked.raw" 4294967296
             4294967296 "little").
    unfold ssize_bound. lia.
Defined.

(** X4: [load_raw_image] does not look past the first width*height items:
    for a positive width and height, on a file of at least width*height*2
    bytes it returns the grid of the first width*height*2 bytes, whatever
    follows them. *)
Theorem load_raw_image_ignores_trailing (e : env) (p : string) (w h : Z)
  (bo : string) (buf : list byte) :
  0 < w -> 0 < h ->
  content_of e p = inr buf ->
  w * h * 2 <= Z.of_nat (List.length buf) ->
  load_raw_image e p w h bo =
    (Return (Np.rows (Z.to_nat h) (Z.to_nat w)
               (Np.items (dtype_of bo) (firstn (Z.to_nat (w * h * 2)) buf))),
     [FromFile p]).
Proof.
  intros Hw Hh Hc Hlen.
  pose proof (content_bound e p buf Hc) as Hbound.
  assert (Hfit : fits_ssize (w * h) = true)
    by (apply fits_ssize_iff; unfold ssize_bound in *; nia).
  assert (Hfith : fits_ssize h = true)
    by (apply fits_ssize_iff; unfold ssize_bound in *; nia).
  assert (Hfitw : fits_ssize w = true)
    by (apply fits_ssize_iff; unfold ssize_bound in *; nia).
  rewrite (load_raw_image_read e p w h bo buf Hfit Hc). cbv zeta.
  assert (Ha : items_read (dtype_of bo) (w * h) buf
               = Np.items (dtype_of bo) (firstn (Z.to_nat (w * h * 2)) buf)).
  { unfold items_read.
    assert (Hcount : (w * h <? 0) = false) by (apply Z.ltb_ge; nia).
    rewrite Hcount, items_firstn. f_equal. f_equal. nia. }
  rewrite Ha.
  assert (Hsize : Np.size (Np.items (dtype_of bo)
                             (firstn (Z.to_nat (w * h * 2)) buf)) = w * h).
  { apply items_size. rewrite length_firstn. nia. }
  rewrite Hsize, Z.eqb_refl.
  unfold Np.reshape. rewrite Hsize, Hfith, Hfitw. cbn [andb negb].
  assert (Hshape : ((0 <=? h) && (0 <=? w) && (h * w =? w * h))%bool = true).
  { rewrite !andb_true_iff, !Z.leb_le, Z.eqb_eq. lia. }
  rewrite Hshape. reflexivity.
Qed.

Lemma load_raw_image_ignores_trailing_witness :
  load_raw_image Sample2.fs "big.raw" 2 2 "little" =
    (Return [[10; 20]; [30; 40]], [FromFile "big.raw"]).
Proof.
  apply (load_raw_image_ignores_trailing Sample2.fs "big.raw" 2 2 "little"
           Sample2.long); [lia | lia | reflexivity | cbn; lia].
Defined.

(** X5: every sample of a grid that [load_raw_image] returns is an
    unsigned 16-bit value. *)
Theorem load_raw_image_samples_u16 (e : env) (p : string) (w h : Z)
  (bo : string) (image : ndarray2) :
  fst (load_raw_image e p w h bo) = Return image ->
  Forall (Forall is_u16) image.
Proof.
  intros Himg.
  destruct (load_raw_image_success_data e p w h bo image Himg)
    as (buf & Hc & Hfit & _).
  rewrite (load_raw_image_read e p w h bo buf Hfit Hc) in Himg.
  cbv zeta in Himg. cbn [fst] in Himg.
  destruct (_ =? _); [|discriminate].
  assert (Hitems : Forall is_u16 (items_read (dtype_of bo) (w * h) buf)).
  { unfold items_read. destruct (w * h <? 0); [apply items_u16|].
    apply Forall_firstn_skipn, items_u16. }
  destruct (reshape_cases e (items_read (dtype_of bo) (w * h) buf) h w)
    as [(hh & ww & Hr) | [err Hr]]; rewrite Hr in Himg; [|discriminate].
  injection Himg as <-. apply rows_Forall, Hitems.
Qed.

Lemma load_raw_image_samples_u16_witness :
  Forall (Forall is_u16) [[10; 20]; [30; 40]].
Proof.
  apply (load_raw_image_samples_u16 Sample.fs "d/a.raw" 2 2 "little").
  reflexivity.
Defined.

(** X6: any byte-order argument other than "little" selects big-endian,
    and it changes nothing but the samples: the run is that of "little"
    with the two bytes of every sample exchanged. *)
Theorem load_raw_image_other_byteorder (e : env) (p : string) (w h : Z)
  (bo : string) :
  bo <> "little"%string ->
  load_raw_image e p w h bo =
    match load_raw_image e p w h "little" with
    | (Return image, log) => (Return (map (map swap16) image), log)
    | (Raise err, log) => (Raise err, log)
    end.
Proof.
  intros Hbo.
  assert (Hdt : dtype_of bo = Np.u2_be).
  { unfold dtype_of. apply String.eqb_neq in Hbo. rewrite Hbo. reflexivity. }
  destruct (fits_ssize (w * h)) eqn:Hfit.
  2: { rewrite !(load_raw_image_overflow e p w h _ Hfit). reflexivity. }
  destruct (content_of e p) as [msg|buf] eqn:Hc.
  - rewrite !(load_raw_image_unreadable e p w h _ msg Hfit Hc). reflexivity.
  - rewrite !(load_raw_image_read e p w h _ buf Hfit Hc). cbv zeta.
    rewrite Hdt. change (dtype_of "little") with Np.u2_le.
    rewrite items_read_swap, reshape_map.
    unfold Np.size. rewrite length_map.
    destruct (_ =? _); [|reflexivity].
    destruct (fst (Np.reshape e (items_read Np.u2_le (w * h) buf) h w));
      reflexivity.
Qed.

Lemma load_raw_image_other_byteorder_witness :
  load_raw_image Sample.fs "one.raw" 1 1 "big"
  = (Return [[swap16 0x0201]], [FromFile "one.raw"]).
Proof.
  rewrite (load_raw_image_other_byteorder Sample.fs "one.raw" 1 1 "big");
    [reflexivity | discriminate].
Defined.

(** ** More on lists *)

Lemma flat_map_ext_in {A B} (f g : A -> list B) (l : list A) :
  (forall x, In x l -> f x = g x) -> flat_map f l = flat_map g l.
Proof.
  induction l as [|x l IH]; intros Hfg; [reflexivity|].
  cbn [flat_map]. rewrite (Hfg x) by (left; reflexivity).
  f_equal. apply IH. intros y Hy. apply Hfg. right; exact Hy.
Qed.

Lemma flat_map_empty {A B} (l : list A) :
  flat_map (fun _ : A => @nil B) l = [].
Proof. induction l as [|x l IH]; [reflexivity | exact IH]. Qed.

(** ** More on the two modes *)

Section Modes.

Variable e : env.

Lemma valid_geometry_test (args : Namespace) :
  0 < width args -> 0 < height args ->
  ((width args <=? 0) || (height args <=? 0))%bool = false.
Proof.
  intros Hw Hh. apply orb_false_iff. split; apply Z.leb_gt; assumption.
Qed.

Lemma chosen_output_eq (args : Namespace) :
  (if truthy (output args)
   then match output args with Some o => o | None => ""%string end
   else derive_output_path (input args)) = chosen_output args.
Proof.
  unfold chosen_output, truthy.
  destruct (output args) as [o|]; [|reflexivity].
  destruct (String.eqb o ""); reflexivity.
Qed.

Lemma for_each_eprint_run (f : string -> string) (l : list string) :
  for_each l (fun msg _ => eprint (f msg)) tt
  = (Return tt, map (fun msg => Stderr (f msg)) l).
Proof.
  induction l as [|x l IH]; [reflexivity|].
  cbn [for_each map]. unfold eprint at 1. cbn [bind emit].
  rewrite IH. reflexivity.
Qed.

Lemma report_failures_run (l : list string) :
  match l with
  | [] => ret tt
  | _ :: _ => for_each l (fun msg _ => eprint ("Failed: " ++ msg)) tt
  end = (Return tt, map (fun msg => Stderr ("Failed: " ++ msg)) l).
Proof.
  destruct l as [|x l]; [reflexivity|].
  apply (for_each_eprint_run (fun msg => ("Failed: " ++ msg)%string)).
Qed.

End Modes.

Lemma main_single_file_log (e : env) (args : Namespace) :
  0 < width args -> 0 < height args ->
  isdir_of e (input args) = false ->
  main e args =
    match convert_to e (input args) (chosen_output args) (width args)
            (height args) (byteorder args) with
    | (Return _, log) =>
        (Return 0,
         IsDir (input args) :: log
         ++ [Stdout ("Wrote FITS: " ++ chosen_output args)])
    | (Raise err, log) =>
        (Return 1,
         IsDir (input args) :: log ++ [Stderr ("Error: " ++ str_exn err)])
    end.
Proof.
  intros Hw Hh Hdir.
  unfold main. rewrite (valid_geometry_test args Hw Hh).
  unfold Os.isdir. cbn [bind emit ret]. rewrite Hdir.
  set (out := if truthy (output args) then _ else _).
  assert (Hout : out = chosen_output args) by apply chosen_output_eq.
  clearbody out. subst out.
  unfold convert_to.
  destruct (validate_file_size e (input args) (width args) (height args))
    as [[[]|err] l1]; cbn; [|rewrite ?app_nil_r; reflexivity].
  destruct (load_raw_image e (input args) (width args) (height args)
              (byteorder args)) as [[image|err] l2]; cbn;
    [|rewrite ?app_nil_r, <- ?app_assoc; reflexivity].
  destruct (write_fits e image (chosen_output args) (input args) (width args)
              (height args) (byteorder args)) as [[[]|err] l3]; cbn;
    rewrite ?app_nil_r, <- ?app_assoc; reflexivity.
Qed.

Lemma convert_to_log (e : env) (p out : string) (w h : Z) (bo : string) :
  let log := snd (convert_to e p out w h bo) in
  log = [GetSize p] \/ log = [GetSize p; FromFile p]
  \/ exists hd, log = [GetSize p; FromFile p; WriteTo out hd].
Proof.
  unfold convert_to. cbv zeta.
  rewrite bind_snd, validate_file_size_log.
  destruct (fst (validate_file_size e p w h)); [|now left].
  rewrite bind_snd.
  destruct (load_raw_image_log_cases e p w h bo) as [Hl | [Hl [err Herr]]];
    rewrite Hl.
  2: { rewrite Herr. now left. }
  destruct (fst (load_raw_image e p w h bo)) as [image|err]; [|now right; left].
  destruct (write_fits_log e image out p w h bo)
    as [[Hw [err Herr]] | [hd Hhd]].
  - rewrite Hw. now right; left.
  - right; right. exists hd. rewrite Hhd. reflexivity.
Qed.

(** X7: in single-file mode the three steps run towards the [--output]
    path, or towards the derived path when [--output] is absent or empty,
    and no other path is written.  When they succeed the status is 0 and the
    only printed line is "Wrote FITS: <output>"; when one raises, the later
    steps are skipped, the status is 1 and the only printed line is
    "Error: <message>" on the error stream. *)
Theorem single_file_run (e : env) (args : Namespace) :
  0 < width args -> 0 < height args ->
  isdir_of e (input args) = false ->
  let out := chosen_output args in
  let run := convert_to e (input args) out (width args) (height args)
               (byteorder args) in
  (fst run = Return tt ->
   fst (main e args) = Return 0
   /\ stdout_lines (snd (main e args)) = [("Wrote FITS: " ++ out)%string]
   /\ stderr_lines (snd (main e args)) = [])
  /\ (forall err,
        fst run = Raise err ->
        fst (main e args) = Return 1
        /\ stdout_lines (snd (main e args)) = []
        /\ stderr_lines (snd (main e args))
           = [("Error: " ++ str_exn err)%string])
  /\ filter is_fs_access (snd (main e args)) = IsDir (input args) :: snd run
  /\ Forall (fun q => q = out) (writeto_paths (snd (main e args))).
Proof.
  intros Hw Hh Hdir out run.
  rewrite (main_single_file_log e args Hw Hh Hdir). fold out. fold run.
  pose proof (convert_to_log e (input args) out (width args) (height args)
                (byteorder args)) as Hlog.
  cbv zeta in Hlog. fold run in Hlog.
  destruct run as [[[]|err] log]; cbn [fst snd] in *.
  - split.
    { intros _. split; [reflexivity|].
      destruct Hlog as [-> | [-> | [hd ->]]]; split; reflexivity. }
    split; [intros err; discriminate|].
    destruct Hlog as [-> | [-> | [hd ->]]]; split;
      repeat (constructor; try reflexivity).
  - split; [discriminate|].
    split.
    { intros err' [= <-]. split; [reflexivity|].
      destruct Hlog as [-> | [-> | [hd ->]]]; split; reflexivity. }
    destruct Hlog as [-> | [-> | [hd ->]]]; split;
      repeat (constructor; try reflexivity).
Qed.

Lemma single_file_run_witness :
  fst (main Sample2.fs (Sample2.args "big.raw" (Some ""%string))) = Return 1
  /\ stdout_lines
       (snd (main Sample2.fs (Sample2.args "big.raw" (Some ""%string)))) = []
  /\ stderr_lines
       (snd (main Sample2.fs (Sample2.args "big.raw" (Some ""%string))))
     = ["Error: File size mismatch: expected 8 bytes for 2x2x16b, but got 10 bytes."%string].
Proof.
  destruct (single_file_run Sample2.fs
              (Sample2.args "big.raw" (Some ""%string)))
    as (_ & Hfail & _); [reflexivity | reflexivity | reflexivity |].
  apply (Hfail (PyExc ValueError
                  "File size mismatch: expected 8 bytes for 2x2x16b, but got 10 bytes.")).
  reflexivity.
Defined.

Lemma main_directory_log (e : env) (args : Namespace) :
  0 < width args -> 0 < height args ->
  isdir_of e (input args) = true ->
  let r := batch_result e (width args) (height args) (byteorder args)
             (candidates e (input args)) in
  main e args =
    (Return (if len (failed r) =? 0 then 0 else 1),
     IsDir (input args) :: output_warning args
     ++ batch_log e (width args) (height args) (byteorder args)
          (Os.walk e (input args))
     ++ Stdout (summary_line r)
        :: map (fun msg => Stderr ("Failed: " ++ msg)) (failed r)).
Proof.
  intros Hw Hh Hdir r.
  unfold main. rewrite (valid_geometry_test args Hw Hh).
  unfold Os.isdir. cbn [bind emit ret]. rewrite Hdir.
  rewrite convert_raw_directory_to_fits_run, walk_candidates_env.
  fold (batch_result e (width args) (height args) (byteorder args)
          (candidates e (input args))).
  fold r.
  assert (Hrep := report_failures_run (failed r)).
  unfold output_warning.
  destruct (truthy (output args)); cbn [bind eprint print emit ret];
    match type of Hrep with ?m = _ => destruct m as [res llog] end;
    injection Hrep as -> ->; cbn; rewrite ?app_nil_r; reflexivity.
Qed.

Lemma convert_one_stderr (e : env) (p : string) (w h : Z) (bo : string) :
  stderr_lines (snd (convert_one e p w h bo)) = [].
Proof.
  destruct (convert_one_log e w h bo p) as [H | [H | [hd H]]]; rewrite H;
    reflexivity.
Qed.

Lemma stdout_of_stderrs (f : string -> string) (l : list string) :
  stdout_lines (map (fun msg => Stderr (f msg)) l) = [].
Proof. induction l as [|x l IH]; [reflexivity | exact IH]. Qed.

Lemma stderr_of_stderrs (f : string -> string) (l : list string) :
  stderr_lines (map (fun msg => Stderr (f msg)) l) = map f l.
Proof.
  induction l as [|x l IH]; [reflexivity|].
  cbn [map]. change (stderr_lines (Stderr (f x) :: ?t))
    with (f x :: stderr_lines t). rewrite IH. reflexivity.
Qed.

(** X8: what directory mode prints.  Standard output holds one
    "Processing: <path>" line per candidate in discovery order, then the
    line "Converted <n> files. Failures: <m>." with the lengths of the two
    lists; the error stream holds the warning when [--output] is given, then
    one "Failed: <entry>" line per entry of [failed] in order. *)
Theorem directory_run (e : env) (args : Namespace) :
  0 < width args -> 0 < height args ->
  isdir_of e (input args) = true ->
  let r := batch_result e (width args) (height args) (byteorder args)
             (candidates e (input args)) in
  stdout_lines (snd (main e args))
  = map (fun p => ("Processing: " ++ p)%string) (candidates e (input args))
    ++ [summary_line r]
  /\ stderr_lines (snd (main e args))
     = stderr_lines (output_warning args)
       ++ map (fun msg => ("Failed: " ++ msg)%string) (failed r).
Proof.
  intros Hw Hh Hdir r.
  rewrite (main_directory_log e args Hw Hh Hdir). fold r. cbn [snd].
  split.
  - unfold stdout_lines at 1. cbn [flat_map app]. rewrite !flat_map_app.
    fold (stdout_lines (output_warning args)).
    cbn [flat_map app].
    fold (stdout_lines
            (map (fun msg => Stderr ("Failed: " ++ msg)) (failed r))).
    rewrite (stdout_of_stderrs (fun msg => ("Failed: " ++ msg)%string)).
    rewrite batch_log_project by reflexivity.
    rewrite walk_candidates_env.
    assert (Hwarn : stdout_lines (output_warning args) = [])
      by (unfold output_warning; destruct (truthy (output args)); reflexivity).
    rewrite Hwarn. cbn [app]. f_equal.
    rewrite <- flat_map_singleton. apply flat_map_ext. intros p.
    unfold attempt_log. cbn [flat_map].
    fold (stdout_lines (snd (convert_one e p (width args) (height args)
                               (byteorder args)))).
    rewrite convert_one_stdout. reflexivity.
  - unfold stderr_lines at 1. cbn [flat_map app]. rewrite !flat_map_app.
    fold (stderr_lines (output_warning args)).
    cbn [flat_map app].
    fold (stderr_lines
            (map (fun msg => Stderr ("Failed: " ++ msg)) (failed r))).
    rewrite (stderr_of_stderrs (fun msg => ("Failed: " ++ msg)%string)).
    rewrite batch_log_project by reflexivity.
    f_equal.
    rewrite (flat_map_ext_in _ (fun _ => [])); [rewrite flat_map_empty; reflexivity|].
    intros p _. unfold attempt_log. cbn [flat_map app].
    apply convert_one_stderr.
Qed.

Lemma directory_run_witness :
  stdout_lines (snd (main Sample2.fs (Sample2.args "ro" (Some "x.fits"%string))))
  = ["Processing: ro/a.raw"; "Converted 0 files. Failures: 1."]%string
  /\ stderr_lines
       (snd (main Sample2.fs (Sample2.args "ro" (Some "x.fits"%string))))
     = ["Warning: --output is ignored when input is a directory.";
        "Failed: ro/a.raw: Failed to write FITS file 'ro/a.fits': [Errno 30] Read-only file system: 'ro/a.fits'"]%string.
Proof.
  destruct (directory_run Sample2.fs (Sample2.args "ro" (Some "x.fits"%string)))
    as [Hout Herr]; [reflexivity | reflexivity | reflexivity |].
  split; [rewrite Hout | rewrite Herr]; reflexivity.
Defined.

(** X9: in directory mode the [--output] argument has no effect beyond
    the warning: two runs that differ only in it end with the same status,
    make the same filesystem accesses (the same writes of the same images
    included) and print the same standard output. *)
Theorem directory_output_ignored (e : env) (a b : Namespace) :
  input a = input b -> width a = width b -> height a = height b ->
  byteorder a = byteorder b ->
  0 < width a -> 0 < height a ->
  isdir_of e (input a) = true ->
  fst (main e a) = fst (main e b)
  /\ filter is_fs_access (snd (main e a)) = filter is_fs_access (snd (main e b))
  /\ stdout_lines (snd (main e a)) = stdout_lines (snd (main e b)).
Proof.
  intros Hi Hw Hh Hbo Hwa Hha Hdir.
  rewrite (main_directory_log e a Hwa Hha Hdir).
  rewrite (main_directory_log e b); [| rewrite <- Hw; exact Hwa
                                | rewrite <- Hh; exact Hha
                                | rewrite <- Hi; exact Hdir].
  rewrite <- Hi, <- Hw, <- Hh, <- Hbo. cbn [fst snd].
  split; [reflexivity|].
  unfold stdout_lines.
  cbn [filter flat_map is_fs_access]. rewrite !filter_app, !flat_map_app.
  unfold output_warning.
  destruct (truthy (output a)), (truthy (output b)); split; reflexivity.
Qed.

Lemma directory_output_ignored_witness :
  fst (main Sample.fs
         {| input := "d"; width := 2; height := 2;
            output := Some "out.fits"%string; byteorder := "little" |})
  = fst (main Sample.fs (Sample.args "d" 2 2)).
Proof.
  apply (directory_output_ignored Sample.fs
           {| input := "d"; width := 2; height := 2;
              output := Some "out.fits"%string; byteorder := "little" |}
           (Sample.args "d" 2 2));
    reflexivity.
Defined.

(** ** The header *)

Section Header.

Variable e : env.

Lemma all_chars_take_drop (q : ascii -> bool) (n : nat) :
  forall s, all_chars q s = true ->
            all_chars q (take n s) = true /\ all_chars q (drop n s) = true.
Proof.
  induction n as [|n IH]; intros [|c s] Hs; cbn in *; auto.
  apply andb_true_iff in Hs as [Hc Hs]. destruct (IH s Hs) as [Ht Hd].
  rewrite Hc, Ht. auto.
Qed.

Lemma pieces_ascii (fuel n : nat) :
  forall v, ascii_text v = true ->
            Forall (fun x => ascii_text x = true) (Fits.pieces fuel n v).
Proof.
  unfold ascii_text.
  induction fuel as [|k IH]; intros v Hv; cbn [Fits.pieces]; [constructor|].
  destruct v as [|c v]; [constructor|].
  destruct (all_chars_take_drop Fits.printable n (String c v) Hv) as [Ht Hd].
  constructor; [exact Ht | apply IH, Hd].
Qed.

Lemma length_drop (n : nat) :
  forall s, String.length (drop n s) = (String.length s - n)%nat.
Proof.
  induction n as [|n IH]; intros [|c s]; cbn; try reflexivity. apply IH.
Qed.

(** The pieces of a value put together give the value back. *)
Lemma pieces_whole (q : ascii -> bool) (n : nat) :
  (0 < n)%nat ->
  forall fuel v,
    (String.length v <= fuel)%nat ->
    Forall (fun x => all_chars q x = true) (Fits.pieces fuel n v) ->
    all_chars q v = true.
Proof.
  intros Hn. induction fuel as [|k IH]; intros v Hlen Hall.
  - destruct v; [reflexivity | cbn in Hlen; lia].
  - destruct v as [|c v]; [reflexivity|].
    cbn [Fits.pieces] in Hall. inversion Hall as [|x l Hx Hl]; subst.
    rewrite <- (take_drop n (String c v)), all_chars_append, Hx.
    apply IH; [|exact Hl].
    rewrite length_drop. cbn [String.length] in *. lia.
Qed.

Lemma commentary_values_ascii (v : string) :
  ascii_text v = true <->
  Forall (fun x => ascii_text x = true) (commentary_values v).
Proof.
  unfold commentary_values.
  destruct (String.length v <=? 72)%nat.
  - split; [intros Hv; constructor; [exact Hv | constructor]|].
    intros Hall. inversion Hall; assumption.
  - split; [apply pieces_ascii|].
    apply (pieces_whole Fits.printable 72); lia.
Qed.

Lemma cards_returns (keyword : string) (values : list string) :
  Forall (fun x => ascii_text x = true) values ->
  Fits.cards e keyword values = (Return (map (pair keyword) values), []).
Proof.
  induction 1 as [|v rest Hv Hrest IH]; [reflexivity|].
  cbn [Fits.cards map]. unfold Fits.Card. unfold ascii_text in Hv.
  rewrite Hv. cbn [bind ret]. rewrite IH. reflexivity.
Qed.

(** The first value that is refused gives the error. *)
Lemma cards_raises (keyword : string) (values : list string) :
  ~ Forall (fun x => ascii_text x = true) values ->
  exists bad,
    In bad values /\ ascii_text bad = false
    /\ Fits.cards e keyword values
       = (Raise (PyExc ValueError (header_value_msg e bad)), []).
Proof.
  induction values as [|v rest IH]; intros Hnot.
  - exfalso. apply Hnot. constructor.
  - destruct (ascii_text v) eqn:Hv.
    + destruct IH as (bad & Hin & Hbad & Hrun).
      { intros Hrest. apply Hnot. constructor; assumption. }
      exists bad. split; [right; exact Hin|]. split; [exact Hbad|].
      cbn [Fits.cards]. unfold Fits.Card. unfold ascii_text in Hv.
      rewrite Hv. cbn [bind ret]. rewrite Hrun. reflexivity.
    + exists v. split; [left; reflexivity|]. split; [exact Hv|].
      cbn [Fits.cards]. unfold Fits.Card. unfold ascii_text in Hv.
      rewrite Hv. reflexivity.
Qed.

Lemma splitcommentary_values (keyword value : string) :
  Fits.splitcommentary e keyword value
  = Fits.cards e keyword (commentary_values value).
Proof.
  unfold Fits.splitcommentary, commentary_values.
  destruct (String.length value <=? 72)%nat; reflexivity.
Qed.

Lemma commentary_cards_trailing (keyword : string) (values : list string) :
  Fits.is_commentary keyword = true ->
  forallb (fun y => Fits.is_commentary (fst y)) (map (pair keyword) values)
  = true.
Proof.
  intros Hk. induction values as [|v rest IH]; [reflexivity|].
  cbn. rewrite Hk, IH. reflexivity.
Qed.

(** With a printable HISTORY value the header holds CREATOR, then COMMENT,
    then the HISTORY cards. *)
Lemma header_cards_returns (raw : string) (w h : Z) (bo : string) :
  ascii_text (history_value raw w h bo) = true ->
  header_cards e raw w h bo = (Return (fits_header raw w h bo), []).
Proof.
  intros Hv. apply commentary_values_ascii in Hv.
  unfold header_cards, fits_header.
  unfold Fits.set_commentary at 1. rewrite splitcommentary_values.
  rewrite (cards_returns "COMMENT") by (repeat constructor).
  cbn [bind ret app commentary_values].
  unfold Fits.set_commentary. rewrite splitcommentary_values.
  rewrite (cards_returns "HISTORY" _ Hv). cbn [bind ret app].
  unfold Fits.set_keyword, Fits.Card. cbn [all_chars]. cbn [bind ret].
  change (commentary_values "Converted from 16-bit RAW (2 bytes/pixel).")
    with ["Converted from 16-bit RAW (2 bytes/pixel)."%string].
  cbn [map app Fits.insert_keyword].
  change (forallb _ (?c :: map (pair "HISTORY"%string) ?vs))
    with (Fits.is_commentary (fst c)
          && forallb (fun y => Fits.is_commentary (fst y))
               (map (pair "HISTORY"%string) vs))%bool.
  rewrite commentary_cards_trailing by reflexivity. reflexivity.
Qed.

(** With a HISTORY value that is not printable ASCII the assignment raises
    astropy's [ValueError]. *)
Lemma header_cards_raises (raw : string) (w h : Z) (bo : string) :
  ascii_text (history_value raw w h bo) = false ->
  exists bad,
    In bad (commentary_values (history_value raw w h bo))
    /\ header_cards e raw w h bo
       = (Raise (PyExc ValueError (header_value_msg e bad)), []).
Proof.
  intros Hv.
  destruct (cards_raises "HISTORY"
              (commentary_values (history_value raw w h bo)))
    as (bad & Hin & _ & Hrun).
  { intros Hall. apply commentary_values_ascii in Hall. congruence. }
  exists bad. split; [exact Hin|].
  unfold header_cards.
  unfold Fits.set_commentary at 1. rewrite splitcommentary_values.
  rewrite (cards_returns "COMMENT") by (repeat constructor).
  cbn [bind ret app].
  unfold Fits.set_commentary. rewrite splitcommentary_values, Hrun.
  reflexivity.
Qed.

Lemma header_cards_returns_iff (raw : string) (w h : Z) (bo : string) :
  (exists hdr, fst (header_cards e raw w h bo) = Return hdr)
  <-> ascii_text (history_value raw w h bo) = true.
Proof.
  split.
  - intros [hdr Hhdr].
    destruct (ascii_text (history_value raw w h bo)) eqn:Hv; [reflexivity|].
    destruct (header_cards_raises raw w h bo Hv) as (bad & _ & Hrun).
    rewrite Hrun in Hhdr. discriminate.
  - intros Hv. rewrite (header_cards_returns raw w h bo Hv).
    eexists; reflexivity.
Qed.

Lemma ascii_text_append (a b : string) :
  ascii_text (a ++ b) = (ascii_text a && ascii_text b)%bool.
Proof. apply all_chars_append. Qed.

Lemma uint_ascii (d : Decimal.uint) :
  ascii_text (NilEmpty.string_of_uint d) = true.
Proof. induction d; cbn; auto. Qed.

Lemma str_of_int_ascii (n : Z) : ascii_text (str_of_int n) = true.
Proof.
  unfold str_of_int, NilZero.string_of_int, NilZero.string_of_uint.
  destruct (Z.to_int n) as [d|d]; destruct d; try reflexivity;
    try (apply (uint_ascii (_ d)));
    change (ascii_text (String "-" ?x)) with (ascii_text x);
    try reflexivity; apply (uint_ascii (_ d)).
Qed.

(** The HISTORY value is printable when the file name and the byte-order
    argument are. *)
Lemma history_value_ascii (raw : string) (w h : Z) (bo : string) :
  ascii_text (OsPath.basename raw) = true -> ascii_text bo = true ->
  ascii_text (history_value raw w h bo) = true.
Proof.
  intros Hname Hbo. unfold history_value.
  rewrite !ascii_text_append, Hname, Hbo, !str_of_int_ascii. reflexivity.
Qed.

End Header.

Section BatchWrites.

Variable e : env.
Variables (w h : Z) (bo : string).

Lemma attempt_writes (p : string) :
  writeto_paths (attempt_log e w h bo p)
  = if reaches_write e w h bo p then [derive_output_path p] else [].
Proof.
  unfold attempt_log, reaches_write, convert_one, writeto_paths. cbv zeta.
  cbn [flat_map app].
  pose proof (validate_file_size_log e p w h) as Hl1.
  destruct (validate_file_size e p w h) as [[[]|err] l1];
    cbn [snd fst] in *; subst l1; cbn [bind]; [|reflexivity].
  pose proof (load_raw_image_log e p w h bo) as Hl2.
  destruct (load_raw_image e p w h bo) as [[image|err] l2];
    cbn [snd fst] in *; subst l2; cbn [bind].
  2: { destruct (fits_ssize (w * h)); reflexivity. }
  rewrite write_fits_header.
  pose proof (header_cards_log e p w h bo) as Hl3.
  destruct (header_cards e p w h bo) as [[hdr|err] l3];
    cbn [snd fst] in *; subst l3; cbn [bind].
  - unfold Fits.writeto, try_except, bind, emit.
    destruct (writeto_of e _ _); destruct (fits_ssize (w * h)); reflexivity.
  - destruct (fits_ssize (w * h)); reflexivity.
Qed.

Lemma succeeds_reaches_write (p : string) :
  succeeds e w h bo p = true -> reaches_write e w h bo p = true.
Proof.
  unfold succeeds, reaches_write, convert_one. cbv zeta.
  rewrite bind_fst.
  destruct (fst (validate_file_size e p w h)); [|discriminate].
  rewrite bind_fst.
  destruct (fst (load_raw_image e p w h bo)) as [image|err]; [|discriminate].
  rewrite bind_fst, write_fits_header, bind_fst.
  destruct (fst (header_cards e p w h bo)); [reflexivity | discriminate].
Qed.

Lemma reaches_write_facts (p : string) :
  reaches_write e w h bo p = true ->
  getsize_of e p = inr (w * h * 2)
  /\ ascii_text (history_value p w h bo) = true.
Proof.
  unfold reaches_write. intros Hp. split.
  - apply validate_file_size_returns.
    destruct (fst (validate_file_size e p w h)) as [[]|err];
      [reflexivity | discriminate].
  - apply (header_cards_returns_iff e).
    destruct (fst (validate_file_size e p w h)); [|discriminate].
    destruct (fst (load_raw_image e p w h bo)); [|discriminate].
    destruct (fst (header_cards e p w h bo)) as [hdr|err]; [|discriminate].
    exists hdr. reflexivity.
Qed.

End BatchWrites.

(** X10: a directory batch attempts a write only for the candidates that
    passed the size validation, the read and the header assignments, at
    their derived output paths and in discovery order; in particular every
    write is for a candidate whose reported size is width*height*2 and whose
    HISTORY value is printable ASCII, and every written file comes from such
    a write. *)
Theorem batch_writes_only_validated (e : env) (root : string) (w h : Z)
  (bo : string) :
  writeto_paths (snd (convert_raw_directory_to_fits e root w h bo))
  = map derive_output_path
      (filter (reaches_write e w h bo) (candidates e root))
  /\ (forall p,
        reaches_write e w h bo p = true ->
        getsize_of e p = inr (w * h * 2)
        /\ ascii_text (history_value p w h bo) = true)
  /\ (forall p,
        succeeds e w h bo p = true -> reaches_write e w h bo p = true).
Proof.
  split.
  { rewrite convert_raw_directory_to_fits_run. cbn [snd].
    unfold writeto_paths. rewrite batch_log_project by reflexivity.
    rewrite walk_candidates_env.
    induction (candidates e root) as [|p l IH]; [reflexivity|].
    cbn [flat_map filter].
    fold (writeto_paths (attempt_log e w h bo p)).
    rewrite attempt_writes, IH.
    destruct (reaches_write e w h bo p); reflexivity. }
  split; [apply reaches_write_facts | apply succeeds_reaches_write].
Qed.

Lemma batch_writes_only_validated_witness :
  writeto_paths (snd (convert_raw_directory_to_fits Sample.fs "d" 2 2 "little"))
  = ["d/a.fits"; "d/sub/c.fits"; "d/sub/.raw.fits"]
  /\ writeto_paths
       (snd (convert_raw_directory_to_fits Sample2.fs "n" 2 2 "little")) = []
  /\ getsize_of Sample.fs "d/a.raw" = inr (2 * 2 * 2).
Proof.
  destruct (batch_writes_only_validated Sample.fs "d" 2 2 "little")
    as (Hpaths & Hfacts & _).
  destruct (batch_writes_only_validated Sample2.fs "n" 2 2 "little")
    as (Hpaths2 & _).
  split; [rewrite Hpaths; reflexivity|].
  split; [rewrite Hpaths2; reflexivity|].
  apply Hfacts. reflexivity.
Defined.

Section WellFormed.

Variable e : env.
Variables (w h : Z) (bo : string).

Lemma write_fits_run (image : ndarray2) (out raw : string) :
  ascii_text (history_value raw w h bo) = true ->
  let hd := {| hdu_data := image; hdu_header := fits_header raw w h bo |} in
  write_fits e image out raw w h bo =
    (match writeto_of e out hd with
     | Some msg =>
         Raise (PyExc RuntimeError
                  ("Failed to write FITS file '" ++ out ++ "': " ++ msg))
     | None => Return tt
     end, [WriteTo out hd]).
Proof.
  intros Hv. cbv zeta.
  rewrite write_fits_header, (header_cards_returns e raw w h bo Hv).
  cbn [bind]. unfold Fits.writeto, bind, emit, try_except.
  destruct (writeto_of e out _); reflexivity.
Qed.

Lemma write_fits_refused (image : ndarray2) (out raw : string) :
  ascii_text (history_value raw w h bo) = false ->
  exists bad,
    In bad (commentary_values (history_value raw w h bo))
    /\ write_fits e image out raw w h bo
       = (Raise (PyExc ValueError (header_value_msg e bad)), []).
Proof.
  intros Hv.
  destruct (header_cards_raises e raw w h bo Hv) as (bad & Hin & Hrun).
  exists bad. split; [exact Hin|].
  rewrite write_fits_header, Hrun. reflexivity.
Qed.

(** The conversion of a well-formed, readable and writable file. *)
Lemma convert_one_well_formed (p : string) (buf : list byte) :
  0 < w -> 0 < h ->
  getsize_of e p = inr (w * h * 2) ->
  content_of e p = inr buf ->
  Z.of_nat (List.length buf) = w * h * 2 ->
  ascii_text (history_value p w h bo) = true ->
  (forall hd, writeto_of e (derive_output_path p) hd = None) ->
  convert_one e p w h bo =
    (Return (derive_output_path p),
     [GetSize p; FromFile p;
      WriteTo (derive_output_path p)
        {| hdu_data := decoded e w h bo p;
           hdu_header := fits_header p w h bo |}]).
Proof.
  intros Hw Hh Hsize Hc Hlen Hv Hwrite.
  unfold convert_one, decoded. cbv zeta.
  rewrite (validate_file_size_run e p w h _ Hsize), Z.eqb_refl.
  rewrite (load_raw_image_exact e p w h bo buf Hc Hw Hh Hlen).
  cbn [bind]. rewrite (write_fits_run _ _ _ Hv). cbv zeta.
  rewrite Hwrite, Hc. reflexivity.
Qed.

End WellFormed.

(** X11: when the byte-order argument and the name of every candidate are
    printable ASCII, and every candidate reports the size width*height*2,
    can be read to that many bytes and can be written at its derived output
    path, the batch fails on none: [written] holds the derived path of every
    candidate in discovery order, [failed] is empty, and the images handed
    to the writer are the decoded grids of the candidates. *)
Theorem batch_converts_well_formed_tree (e : env) (root : string) (w h : Z)
  (bo : string) :
  0 < w -> 0 < h ->
  ascii_text bo = true ->
  (forall p,
     In p (candidates e root) ->
     ascii_text (OsPath.basename p) = true
     /\ getsize_of e p = inr (w * h * 2)
     /\ (exists buf,
           content_of e p = inr buf
           /\ Z.of_nat (List.length buf) = w * h * 2)
     /\ (forall hd, writeto_of e (derive_output_path p) hd = None)) ->
  exists r log,
    convert_raw_directory_to_fits e root w h bo = (Return r, log)
    /\ written r = map derive_output_path (candidates e root)
    /\ failed r = []
    /\ written_images log
       = map (fun p => (derive_output_path p, decoded e w h bo p))
           (candidates e root).
Proof.
  intros Hw Hh Hbo Hall.
  assert (Hone : forall p,
             In p (candidates e root) ->
             convert_one e p w h bo =
               (Return (derive_output_path p),
                [GetSize p; FromFile p;
                 WriteTo (derive_output_path p)
                   {| hdu_data := decoded e w h bo p;
                      hdu_header := fits_header p w h bo |}])).
  { intros p Hp.
    destruct (Hall p Hp) as (Hname & Hsize & (buf & Hc & Hlen) & Hwr).
    apply (convert_one_well_formed e w h bo p buf); try assumption.
    apply history_value_ascii; assumption. }
  rewrite convert_raw_directory_to_fits_run, walk_candidates_env.
  do 2 eexists. split; [reflexivity|]. cbn [written failed].
  split.
  { rewrite <- flat_map_singleton. apply flat_map_ext_in. intros p Hp.
    unfold written_by, succeeds. rewrite (Hone p Hp). reflexivity. }
  split.
  { rewrite (flat_map_ext_in _ (fun _ => []) _).
    - apply flat_map_empty.
    - intros p Hp. unfold failed_by, succeeds. rewrite (Hone p Hp).
      reflexivity. }
  unfold written_images. rewrite batch_log_project by reflexivity.
  rewrite walk_candidates_env, <- flat_map_singleton.
  apply flat_map_ext_in. intros p Hp.
  unfold attempt_log. rewrite (Hone p Hp). reflexivity.
Qed.

Lemma batch_converts_well_formed_tree_witness :
  exists r log,
    convert_raw_directory_to_fits Sample2.fs "ok" 2 2 "little" = (Return r, log)
    /\ written r = ["ok/a.fits"; "ok/s/b.fits"]
    /\ failed r = []
    /\ written_images log
       = [("ok/a.fits", [[10; 20]; [30; 40]]);
          ("ok/s/b.fits", [[10; 20]; [30; 40]])].
Proof.
  destruct (batch_converts_well_formed_tree Sample2.fs "ok" 2 2 "little")
    as (r & log & Hrun & Hw & Hf & Himg).
  - lia.
  - lia.
  - reflexivity.
  - intros p [<- | [<- | []]];
      (split; [reflexivity|]); (split; [reflexivity|]);
      (split; [|reflexivity]);
      exists Sample.good; split; reflexivity.
  - exists r, log.
    split; [exact Hrun|]. split; [exact Hw|]. split; [exact Hf|]. exact Himg.
Defined.

(** X12: a candidate that cannot be converted is reported in [failed]
    under its own path: with the access error when its size cannot be
    queried, with the two byte counts when its size is not width*height*2,
    and with the read error when it has the right size but cannot be read. *)
Theorem batch_reports_bad_candidate (e : env) (root : string) (w h : Z)
  (bo : string) (p : string) :
  In p (candidates e root) ->
  exists r,
    fst (convert_raw_directory_to_fits e root w h bo) = Return r
    /\ (forall msg,
          getsize_of e p = inl msg ->
          In (p ++ ": Cannot access '" ++ p ++ "': " ++ msg)%string (failed r))
    /\ (forall n,
          getsize_of e p = inr n -> n <> w * h * 2 ->
          In (p ++ ": File size mismatch: expected " ++ str_of_int (w * h * 2)
              ++ " bytes for " ++ str_of_int w ++ "x" ++ str_of_int h
              ++ "x16b, but got " ++ str_of_int n ++ " bytes.")%string
             (failed r))
    /\ (forall msg,
          getsize_of e p = inr (w * h * 2) -> content_of e p = inl msg ->
          In (p ++ ": Failed to read RAW data: " ++ msg)%string (failed r)).
Proof.
  intros Hp.
  rewrite convert_raw_directory_to_fits_run, walk_candidates_env.
  eexists. split; [reflexivity|]. cbn [failed].
  assert (Hline : forall err,
             fst (convert_one e p w h bo) = Raise err ->
             In (p ++ ": " ++ str_exn err)%string
                (flat_map (failed_by e w h bo) (candidates e root))).
  { intros err Herr. apply in_flat_map. exists p. split; [exact Hp|].
    unfold failed_by, succeeds, failure_line. rewrite Herr. left; reflexivity. }
  split; [|split].
  - intros msg Hmsg. apply (Hline (PyExc FileNotFoundError _)).
    unfold convert_one. cbv zeta. rewrite bind_fst.
    rewrite (validate_file_size_inaccessible e p w h msg Hmsg). reflexivity.
  - intros n Hn Hne. apply (Hline (PyExc ValueError _)).
    unfold convert_one. cbv zeta. rewrite bind_fst.
    rewrite (validate_file_size_run e p w h n Hn). cbn [fst].
    apply Z.eqb_neq in Hne. rewrite Hne. reflexivity.
  - intros msg Hn Hc. apply (Hline (PyExc RuntimeError _)).
    unfold convert_one. cbv zeta. rewrite bind_fst.
    rewrite (validate_file_size_run e p w h _ Hn), Z.eqb_refl. cbn [fst].
    rewrite bind_fst.
    rewrite (load_raw_image_unreadable e p w h bo msg
               (getsize_fits e p w h Hn) Hc).
    reflexivity.
Qed.

Lemma batch_reports_bad_candidate_witness :
  exists r,
    fst (convert_raw_directory_to_fits Sample.fs "d" 2 2 "little") = Return r
    /\ In "d/b.RAW: File size mismatch: expected 8 bytes for 2x2x16b, but got 6 bytes."%string
          (failed r).
Proof.
  destruct (batch_reports_bad_candidate Sample.fs "d" 2 2 "little" "d/b.RAW")
    as (r & Hr & _ & Hsize & _).
  - change (In "d/b.RAW"%string
              ["d/a.raw"; "d/b.RAW"; "d/sub/c.raw"; "d/sub/.raw"]%string).
    right; left; reflexivity.
  - exists r. split; [exact Hr|].
    apply (Hsize 6); [reflexivity | lia].
Defined.

(** ** More on paths *)

Section Paths.

Local Open Scope string_scope.

Lemma drop_append_more (a b : string) (k : nat) :
  drop (String.length a + k) (a ++ b) = drop k b.
Proof. induction a as [|x a IH]; cbn; [reflexivity | exact IH]. Qed.

Lemma is_raw_fits (base : string) : is_raw (base ++ ".fits") = false.
Proof.
  unfold is_raw, endswith.
  rewrite lower_append, length_append, length_lower.
  change (lower ".fits") with ".fits".
  replace (String.length base + String.length ".fits" - String.length ".raw")%nat
    with (String.length (lower base) + 1)%nat
    by (rewrite length_lower; cbn; lia).
  rewrite drop_append_more. cbn. apply andb_false_r.
Qed.

Lemma is_raw_append (x f : string) : is_raw f = true -> is_raw (x ++ f) = true.
Proof.
  rewrite !is_raw_spec. intros (stem & ext & -> & Hext).
  exists (x ++ stem), ext. split; [symmetry; apply append_assoc | exact Hext].
Qed.

Lemma is_raw_join (d f : string) :
  is_raw f = true -> is_raw (OsPath.join d f) = true.
Proof.
  intros Hf. unfold OsPath.join.
  destruct (startswith f OsPath.sep); [exact Hf|].
  destruct (_ || _)%bool; [apply is_raw_append, Hf|].
  apply is_raw_append, is_raw_append, Hf.
Qed.

Lemma candidates_are_raw (e : env) (root p : string) :
  In p (candidates e root) -> is_raw p = true.
Proof.
  unfold candidates. destruct (tree_of e root) as [t|]; [|intros []].
  intros Hp. apply tree_candidates_spec in Hp as (d & f & _ & Hraw & ->).
  apply is_raw_join, Hraw.
Qed.

Lemma rfind_some (c : ascii) (s : string) :
  forall i, rfind c s = Some i ->
            exists r, drop i s = String c r /\ rfind c r = None.
Proof.
  induction s as [|x s IH]; intros i; cbn [rfind]; [discriminate|].
  destruct (rfind c s) as [j|] eqn:Hj.
  - intros [= <-]. cbn [drop]. apply IH. reflexivity.
  - destruct (Ascii.eqb_spec x c) as [-> | Hne]; [|discriminate].
    intros [= <-]. exists s. split; [reflexivity | exact Hj].
Qed.

Lemma rfind_drop_none (c : ascii) (s : string) :
  forall i, index_Z (rfind c s) < Z.of_nat i -> rfind c (drop i s) = None.
Proof.
  induction s as [|x s IH]; intros i Hi.
  - destruct i; reflexivity.
  - destruct i as [|k].
    + cbn [drop]. destruct (rfind c (String x s)); [cbn in Hi; lia | reflexivity].
    + cbn [drop]. apply IH. cbn [rfind] in Hi.
      destruct (rfind c s) as [j|]; cbn [index_Z] in *; lia.
Qed.

Lemma length_take (n : nat) (s : string) :
  (n <= String.length s)%nat -> String.length (take n s) = n.
Proof.
  revert s; induction n as [|n IH]; intros [|c s] Hn; cbn in *; try lia.
  rewrite IH by lia. reflexivity.
Qed.

Lemma all_chars_plain (s : string) :
  all_chars not_dot s = true -> all_chars not_sep s = true ->
  all_chars plain s = true.
Proof.
  induction s as [|x s IH]; cbn; [reflexivity|].
  rewrite !andb_true_iff. intros [Hd Hds] [Hs Hss].
  unfold plain. rewrite Hd, Hs. split; [reflexivity | apply IH; assumption].
Qed.

(** [basename] is what follows the last separator. *)
Lemma basename_split (p : string) :
  exists dir,
    dir_prefix dir /\ p = dir ++ OsPath.basename p
    /\ all_chars not_sep (OsPath.basename p) = true.
Proof.
  unfold OsPath.basename.
  destruct (rfind "/" p) as [i|] eqn:Hi; cbn [index_Z].
  - destruct (rfind_some "/" p i Hi) as (r & Hdrop & Hr).
    pose proof (rfind_lt "/" p i Hi) as Hlt.
    assert (Hp : p = (take i p ++ "/") ++ r).
    { rewrite append_assoc. cbn [append]. rewrite <- Hdrop.
      symmetry. apply take_drop. }
    replace (Z.to_nat (Z.of_nat i + 1)) with (S i) by lia.
    assert (Hbase : drop (S i) p = r).
    { rewrite Hp at 1.
      replace (S i) with (String.length (take i p ++ "/"))
        by (rewrite length_append, length_take by lia; cbn; lia).
      apply drop_append_length. }
    rewrite Hbase.
    exists (take i p ++ "/"). split; [right; eexists; reflexivity|].
    split; [exact Hp | apply rfind_none, Hr].
  - exists "". split; [left; reflexivity|]. cbn [drop Z.to_nat Z.add].
    change (Z.to_nat (-1 + 1)) with 0%nat. cbn [drop append].
    split; [reflexivity | apply rfind_none, Hi].
Qed.

End Paths.

(** X13: an output path is never a candidate: the derived path of any
    input does not pass the candidate filter, whereas every candidate path
    does.  So the batch never writes over one of its inputs, and its outputs
    are not picked up as inputs. *)
Theorem outputs_are_not_candidates (e : env) (root p : string) :
  In p (candidates e root) ->
  is_raw p = true
  /\ derive_output_path p <> p
  /\ ~ In (derive_output_path p) (candidates e root)
  /\ (forall q, is_raw (derive_output_path q) = false).
Proof.
  intros Hp.
  assert (Hout : forall q, is_raw (derive_output_path q) = false).
  { intros q. unfold derive_output_path.
    destruct (OsPath.splitext q) as [base ext]. apply is_raw_fits. }
  pose proof (candidates_are_raw e root p Hp) as Hraw.
  split; [exact Hraw|].
  split.
  - intros Heq. specialize (Hout p). rewrite Heq in Hout. congruence.
  - split; [|exact Hout].
    intros Hin. apply candidates_are_raw in Hin.
    rewrite Hout in Hin. discriminate.
Qed.

Lemma outputs_are_not_candidates_witness :
  derive_output_path "d/sub/.raw" <> "d/sub/.raw"%string.
Proof.
  apply (outputs_are_not_candidates Sample.fs "d" "d/sub/.raw").
  change (In "d/sub/.raw"%string
            ["d/a.raw"; "d/b.RAW"; "d/sub/c.raw"; "d/sub/.raw"]%string).
  right; right; right; left; reflexivity.
Defined.

(** X14: the output path is the input path with at most one suffix
    replaced by ".fits": a dot followed by characters that are neither dots
    nor separators.  The directory part of the path is never touched. *)
Theorem derive_output_path_shape (p : string) :
  exists base ext,
    p = (base ++ ext)%string
    /\ derive_output_path p = (base ++ ".fits")%string
    /\ (ext = ""%string
        \/ exists r, ext = String "." r /\ all_chars plain r = true).
Proof.
  unfold derive_output_path, OsPath.splitext.
  destruct (rfind "." p) as [i|] eqn:Hdot; cbn [index_Z].
  2: { assert (Hle : (-1 >? index_Z (rfind "/" p)) = false).
       { rewrite Z.gtb_ltb. apply Z.ltb_ge.
         destruct (rfind "/" p); cbn [index_Z]; lia. }
       rewrite Hle. exists p, ""%string.
       split; [symmetry; apply append_nil_r|].
       split; [reflexivity | left; reflexivity]. }
  destruct (Z.of_nat i >? index_Z (rfind "/" p)) eqn:Hgt.
  2: { exists p, ""%string. split; [symmetry; apply append_nil_r|].
       split; [reflexivity | left; reflexivity]. }
  destruct (OsPath.only_dots p _ _).
  { exists p, ""%string. split; [symmetry; apply append_nil_r|].
    split; [reflexivity | left; reflexivity]. }
  rewrite Nat2Z.id.
  exists (take i p), (drop i p).
  split; [symmetry; apply take_drop|]. split; [reflexivity|].
  right.
  destruct (rfind_some "." p i Hdot) as (r & Hdrop & Hr).
  exists r. split; [exact Hdrop|].
  apply all_chars_plain; [apply rfind_none, Hr|].
  assert (Hsep : rfind "/" (drop i p) = None).
  { apply rfind_drop_none. rewrite Z.gtb_ltb in Hgt. apply Z.ltb_lt, Hgt. }
  rewrite Hdrop in Hsep. apply rfind_none in Hsep.
  cbn [all_chars] in Hsep. apply andb_true_iff in Hsep. apply Hsep.
Qed.

Lemma length_take_le (n : nat) :
  forall s, (String.length (take n s) <= n)%nat.
Proof.
  induction n as [|n IH]; intros [|c s]; cbn; try lia.
  specialize (IH s). lia.
Qed.

Lemma pieces_short (fuel n : nat) :
  forall v, Forall (fun x => (String.length x <= n)%nat) (Fits.pieces fuel n v).
Proof.
  induction fuel as [|k IH]; intros v; cbn [Fits.pieces]; [constructor|].
  destruct v as [|c v]; [constructor|].
  constructor; [apply length_take_le | apply IH].
Qed.

Lemma commentary_values_short (v : string) :
  Forall (fun x => (String.length x <= 72)%nat) (commentary_values v).
Proof.
  unfold commentary_values.
  destruct (Nat.leb_spec (String.length v) 72) as [Hle | Hgt].
  - constructor; [exact Hle | constructor].
  - apply pieces_short.
Qed.

(** X15: [write_fits] first assigns the header.  When the HISTORY value
    (the source file name, the geometry and the byte order) holds a
    character that is not printable ASCII, astropy's [ValueError] is raised
    as it is and nothing is written.  Otherwise it makes one write, to the
    output path, of the image as given with the cards CREATOR, COMMENT and
    HISTORY (cut into values of at most 72 characters) in that order; it
    returns exactly when that write succeeds, and a failed write is raised
    as a [RuntimeError] naming the output path.  The HISTORY card names the
    source by its file name alone: what follows the last separator of the
    input path. *)
Theorem write_fits_outcome (e : env) (image : ndarray2) (out raw : string)
  (w h : Z) (bo : string) :
  let v := history_value raw w h bo in
  let hd := {| hdu_data := image; hdu_header := fits_header raw w h bo |} in
  (ascii_text v = true ->
   snd (write_fits e image out raw w h bo) = [WriteTo out hd]
   /\ (fst (write_fits e image out raw w h bo) = Return tt
       <-> writeto_of e out hd = None)
   /\ (forall msg,
         writeto_of e out hd = Some msg ->
         fst (write_fits e image out raw w h bo)
         = Raise (PyExc RuntimeError
                    ("Failed to write FITS file '" ++ out ++ "': " ++ msg))))
  /\ (ascii_text v = false ->
      exists bad,
        In bad (commentary_values v)
        /\ write_fits e image out raw w h bo
           = (Raise (PyExc ValueError (header_value_msg e bad)), []))
  /\ Forall (fun x => (String.length x <= 72)%nat) (commentary_values v)
  /\ (exists dir,
        dir_prefix dir /\ raw = (dir ++ OsPath.basename raw)%string
        /\ all_chars not_sep (OsPath.basename raw) = true).
Proof.
  intros v hd.
  split; [|split; [|split]].
  - intros Hv.
    pose proof (write_fits_run e w h bo image out raw Hv) as Hrun.
    cbv zeta in Hrun. fold hd in Hrun. rewrite Hrun. cbn [fst snd].
    split; [reflexivity|].
    split.
    + destruct (writeto_of e out hd); split; (reflexivity || discriminate).
    + intros msg Hmsg. rewrite Hmsg. reflexivity.
  - apply write_fits_refused.
  - apply commentary_values_short.
  - apply basename_split.
Qed.

Lemma write_fits_outcome_witness :
  fst (write_fits Sample2.fs [[1]] "ro/x.fits" "ro/x.raw" 1 1 "little")
  = Raise (PyExc RuntimeError
             "Failed to write FITS file 'ro/x.fits': [Errno 30] Read-only file system: 'ro/x.fits'")
  /\ exists bad,
       write_fits Sample2.fs [[1]] "n/x.fits" Sample2.accented 1 1 "little"
       = (Raise (PyExc ValueError (header_value_msg Sample2.fs bad)), []).
Proof.
  split.
  - apply (write_fits_outcome Sample2.fs [[1]] "ro/x.fits" "ro/x.raw" 1 1
             "little"); reflexivity.
  - destruct (write_fits_outcome Sample2.fs [[1]] "n/x.fits" Sample2.accented
                1 1 "little") as (_ & Hbad & _).
    destruct (Hbad eq_refl) as (bad & _ & Hrun).
    exists bad. exact Hrun.
Defined.

Lemma convert_one_to (e : env) (p : string) (w h : Z) (bo : string) :
  convert_one e p w h bo =
    match convert_to e p (derive_output_path p) w h bo with
    | (Return _, log) => (Return (derive_output_path p), log)
    | (Raise err, log) => (Raise err, log)
    end.
Proof.
  unfold convert_one, convert_to. cbv zeta.
  destruct (validate_file_size e p w h) as [[[]|err] l1]; cbn;
    [|reflexivity].
  destruct (load_raw_image e p w h bo) as [[image|err] l2]; cbn;
    [|reflexivity].
  destruct (write_fits e image (derive_output_path p) p w h bo)
    as [[[]|err] l3]; cbn; rewrite ?app_nil_r; reflexivity.
Qed.

(** X16: single-file mode without [--output] does to its input exactly
    what directory mode does to a candidate: after the directory test, the
    same filesystem accesses in the same order, a status 0 exactly when the
    candidate would have been added to [written], and 1 when it would have
    been added to [failed]. *)
Theorem single_file_matches_candidate (e : env) (args : Namespace) :
  0 < width args -> 0 < height args ->
  isdir_of e (input args) = false ->
  truthy (output args) = false ->
  fst (main e args)
  = Return (if succeeds e (width args) (height args) (byteorder args)
                 (input args) then 0 else 1)
  /\ filter is_fs_access (snd (main e args))
     = IsDir (input args)
       :: snd (convert_one e (input args) (width args) (height args)
                 (byteorder args)).
Proof.
  intros Hw Hh Hdir Hout.
  rewrite (main_single_file_log e args Hw Hh Hdir).
  assert (Hpath : chosen_output args = derive_output_path (input args)).
  { rewrite <- chosen_output_eq, Hout. reflexivity. }
  rewrite Hpath.
  unfold succeeds. rewrite convert_one_to.
  pose proof (convert_to_log e (input args) (derive_output_path (input args))
                (width args) (height args) (byteorder args)) as Hlog.
  cbv zeta in Hlog.
  destruct (convert_to e (input args) (derive_output_path (input args))
              (width args) (height args) (byteorder args))
    as [[[]|err] log]; cbn [fst snd] in *;
    (split; [reflexivity|]);
    destruct Hlog as [-> | [-> | [hd ->]]]; reflexivity.
Qed.

Lemma single_file_matches_candidate_witness :
  fst (main Sample.fs (Sample.args "d/b.RAW" 2 2)) = Return 1
  /\ filter is_fs_access (snd (main Sample.fs (Sample.args "d/b.RAW" 2 2)))
     = [IsDir "d/b.RAW"; GetSize "d/b.RAW"].
Proof.
  apply (single_file_matches_candidate Sample.fs (Sample.args "d/b.RAW" 2 2));
    reflexivity.
Defined.
